(** * awt-chat-mcp-server: a shallow embedding of the tool-call server

    The development follows the Python sources file by file:
    - [py]               the fragment of Python the program relies on
                         (values, exceptions, [float], [int], [round],
                         [str.replace], [repr], effects, ...);
    - [mcp]              the records of [mcp.types] the server builds;
    - [calc_tools]       src/tools/calc_tools.py;
    - [file_tools]       src/tools/file_tools.py (its tool list);
    - [data_tools]       src/tools/data_tools.py;
    - [web_tools]        src/tools/web_tools.py;
    - [file_resources]   src/resources/file_resources.py;
    - [analysis_prompts] src/prompts/analysis_prompts.py;
    - [server]           src/server.py;
    - [advanced]         [calculate_advanced] of src/tools/calc_tools.py;
    - [file_paths]       the path checks of src/tools/file_tools.py;
    - [reports]          the summary report of src/tools/data_tools.py;
    - [spec]             the vocabulary of the properties;
    - [example], [sample] concrete hosts, for the examples.
    The properties come last, one section per part of the program.

    Python [float] is IEEE-754 binary64 and is modelled by the kernel's
    primitive floats; [int] is unbounded and modelled by [Z].  A [dict]
    that the program iterates over is an association list in insertion
    order; a [dict] that is only queried by key is a [gmap]. *)

From Stdlib Require Import ZArith List String Ascii Floats Lia Bool DecimalString.
From stdpp Require Import base option gmap strings.

Set Warnings "-inexact-float,-register-all".
Open Scope string_scope.

(** ** The Python fragment *)

Module py.

(** *** Exceptions and outcomes *)

(** The exception classes the program raises or meets.  All of them
    derive from [Exception]; [JSONDecodeError] derives from
    [ValueError]. *)
Inductive exc_class : Set :=
| Exception
| ValueError
| JSONDecodeError
| KeyError
| IndexError
| TypeError
| AttributeError
| OverflowError
| ZeroDivisionError
| OSError.

Definition exc_class_eqb (c d : exc_class) : bool :=
  match c, d with
  | Exception, Exception | ValueError, ValueError
  | JSONDecodeError, JSONDecodeError | KeyError, KeyError
  | IndexError, IndexError | TypeError, TypeError
  | AttributeError, AttributeError | OverflowError, OverflowError
  | ZeroDivisionError, ZeroDivisionError | OSError, OSError => true
  | _, _ => false
  end.

(** [issubclass c d], for the classes above. *)
Definition issubclass (c d : exc_class) : bool :=
  match d with
  | Exception => true
  | ValueError => match c with ValueError | JSONDecodeError => true | _ => false end
  | _ => exc_class_eqb c d
  end.

(** An exception instance: its class and its single string argument. *)
Record exn : Set := Exn { exn_class : exc_class; exn_arg : string }.

(** The outcome of running a piece of code: a value or a raised
    exception. *)
Inductive result (A : Type) : Type :=
| Ok (a : A)
| Raise (e : exn).
Arguments Ok {A} a.
Arguments Raise {A} e.

Definition bind {A B} (c : result A) (k : A -> result B) : result B :=
  match c with
  | Ok a => k a
  | Raise e => Raise e
  end.

#[export] Instance result_bind : MBind result := fun A B k c => bind c k.
#[export] Instance result_ret : MRet result := @Ok.

Definition raise {A} (c : exc_class) (msg : string) : result A :=
  Raise (Exn c msg).

(** [try: c] followed by [except cls as e: h e] clauses: the first clause
    whose class matches handles the exception; what a handler raises is
    not handled by the clauses after it. *)
Fixpoint try_ {A} (c : result A)
    (clauses : list (exc_class * (exn -> result A))) : result A :=
  match c, clauses with
  | Raise e, (cls, h) :: rest =>
      if issubclass (exn_class e) cls then h e else try_ c rest
  | _, _ => c
  end.

Definition is_ok {A} (c : result A) : bool :=
  match c with Ok _ => true | Raise _ => false end.

(** *** Characters and strings *)

Definition char_in (lo hi : nat) (c : ascii) : bool :=
  let n := nat_of_ascii c in (lo <=? n)%nat && (n <=? hi)%nat.

Definition dquote : ascii := "034"%char.
Definition squote : ascii := "'"%char.
Definition backslash : ascii := "\"%char.

(** [str.lower], on the ASCII letters. *)
Definition lower_char (c : ascii) : ascii :=
  if char_in 65 90 c then ascii_of_nat (nat_of_ascii c + 32) else c.

Fixpoint lower (s : string) : string :=
  match s with
  | EmptyString => EmptyString
  | String c s' => String (lower_char c) (lower s')
  end.

(** [s.startswith(p)] *)
Fixpoint startswith (s p : string) : bool :=
  match p, s with
  | EmptyString, _ => true
  | String a p', String b s' => Ascii.eqb a b && startswith s' p'
  | String _ _, EmptyString => false
  end.

(** [sub in s] *)
Fixpoint contains (sub s : string) : bool :=
  startswith s sub ||
  match s with
  | EmptyString => false
  | String _ s' => contains sub s'
  end.

(** [s[n:]] *)
Fixpoint drop (n : nat) (s : string) : string :=
  match n, s with
  | O, _ => s
  | S _, EmptyString => EmptyString
  | S n', String _ s' => drop n' s'
  end.

(** [s.split(sep)] for a one-character separator: never empty. *)
Fixpoint split (sep : ascii) (s : string) : list string :=
  match s with
  | EmptyString => [EmptyString]
  | String c s' =>
      if Ascii.eqb c sep then EmptyString :: split sep s'
      else match split sep s' with
           | [] => [String c EmptyString]
           | w :: ws => String c w :: ws
           end
  end.

(** [s.replace(old, new)] for a non-empty [old]: the occurrences of
    [old] are found from left to right and do not overlap.  [skip]
    counts the characters of a matched occurrence still to be passed
    over. *)
Fixpoint replace_from (old new : string) (skip : nat) (s : string) : string :=
  match s with
  | EmptyString => EmptyString
  | String c s' =>
      match skip with
      | S k => replace_from old new k s'
      | O =>
          if startswith s old
          then new ++ replace_from old new (String.length old - 1) s'
          else String c (replace_from old new 0 s')
      end
  end.

Definition replace (old new s : string) : string :=
  replace_from old new 0 s.

(** [str(n)] for an [int]. *)
Definition str_of_int (z : Z) : string :=
  NilZero.string_of_int (Z.to_int z).

(** [repr(s)] for a string: the quote is the double quote exactly when
    [s] holds a single quote and no double quote; the quote, the
    backslash and the control characters are escaped.  Bytes above 127
    (the UTF-8 encoding of printable characters) are kept. *)
Definition hex_digit (n : nat) : ascii :=
  if (n <? 10)%nat then ascii_of_nat (48 + n) else ascii_of_nat (87 + n).

Definition repr_char (quote c : ascii) : string :=
  if Ascii.eqb c quote || Ascii.eqb c backslash then String backslash (String c EmptyString)
  else if Ascii.eqb c "009"%char then "\t"
  else if Ascii.eqb c "010"%char then "\n"
  else if Ascii.eqb c "013"%char then "\r"
  else if char_in 0 31 c || Ascii.eqb c "127"%char then
    let n := nat_of_ascii c in
    "\x" ++ String (hex_digit (n / 16)) (String (hex_digit (n mod 16)) EmptyString)
  else String c EmptyString.

Fixpoint repr_body (quote : ascii) (s : string) : string :=
  match s with
  | EmptyString => EmptyString
  | String c s' => repr_char quote c ++ repr_body quote s'
  end.

Definition repr_str (s : string) : string :=
  let quote :=
    if contains (String squote EmptyString) s && negb (contains (String dquote EmptyString) s)
    then dquote else squote in
  String quote (repr_body quote s ++ String quote EmptyString).

(** [str(e)] for an exception with one argument: the argument, except
    for [KeyError], which shows its [repr]. *)
Definition str_of_exn (e : exn) : string :=
  match exn_class e with
  | KeyError => repr_str (exn_arg e)
  | _ => exn_arg e
  end.

(** *** [int(s)] on a string, base ten

    Surrounding whitespace is stripped; an optional sign is followed by
    decimal digits, single underscores allowed between digits. *)
Definition is_space (c : ascii) : bool :=
  char_in 9 13 c || char_in 28 32 c.

Definition is_digit (c : ascii) : bool := char_in 48 57 c.

Fixpoint lstrip (s : string) : string :=
  match s with
  | String c s' => if is_space c then lstrip s' else s
  | EmptyString => EmptyString
  end.

Fixpoint all_space (s : string) : bool :=
  match s with
  | EmptyString => true
  | String c s' => is_space c && all_space s'
  end.

(** [digits acc after_digit s]: reads the digits of [s] into [acc];
    [after_digit] tells that the previous character was a digit, so
    that an underscore or the end may follow. *)
Fixpoint digits (acc : Z) (after_digit : bool) (s : string) : option Z :=
  match s with
  | EmptyString => if after_digit then Some acc else None
  | String c s' =>
      if is_digit c
      then digits (10 * acc + Z.of_nat (nat_of_ascii c - 48)) true s'
      else if Ascii.eqb c "_"%char
      then (if after_digit then digits acc false s' else None)
      else if after_digit && all_space s then Some acc else None
  end.

Definition int_of_str (s : string) : option Z :=
  match lstrip s with
  | String "-" s' => option_map Z.opp (digits 0 false s')
  | String "+" s' => digits 0 false s'
  | s' => digits 0 false s'
  end.

(** [int(s)] raises [ValueError] on a string that is no integer. *)
Definition int_ (s : string) : result Z :=
  match int_of_str s with
  | Some z => Ok z
  | None =>
      raise ValueError
        ("invalid literal for int() with base 10: " ++ repr_str s)
  end.

(** *** Values *)

(** What [json.load] produces and what a tool receives as an argument.
    A [VDict] lists its items in insertion order, with distinct keys. *)
Inductive value : Type :=
| VNone
| VBool (b : bool)
| VInt (z : Z)
| VFloat (f : float)
| VStr (s : string)
| VList (l : list value)
| VDict (d : list (string * value)).

(** [type(v).__name__] *)
Definition type_name (v : value) : string :=
  match v with
  | VNone => "NoneType"
  | VBool _ => "bool"
  | VInt _ => "int"
  | VFloat _ => "float"
  | VStr _ => "str"
  | VList _ => "list"
  | VDict _ => "dict"
  end.

(** Truth value testing, as in [if v:] and [not v]. *)
Definition truthy (v : value) : bool :=
  match v with
  | VNone => false
  | VBool b => b
  | VInt z => negb (z =? 0)%Z
  | VFloat f => negb (PrimFloat.eqb f 0)
  | VStr s => negb (String.eqb s EmptyString)
  | VList l => match l with [] => false | _ => true end
  | VDict d => match d with [] => false | _ => true end
  end.

(** Lookup in the items of a [dict]. *)
Fixpoint dict_get (d : list (string * value)) (k : string) : option value :=
  match d with
  | [] => None
  | (k', v) :: d' => if String.eqb k' k then Some v else dict_get d' k
  end.

(** [v == k] for a string [k]. *)
Definition is_str (k : string) (v : value) : bool :=
  match v with VStr s => String.eqb s k | _ => false end.

(** [k in v] for a string [k]. *)
Definition contains_key (v : value) (k : string) : result bool :=
  match v with
  | VDict d => Ok (match dict_get d k with Some _ => true | None => false end)
  | VList l => Ok (existsb (is_str k) l)
  | VStr s => Ok (contains k s)
  | _ => raise TypeError
           ("argument of type '" ++ type_name v ++ "' is not iterable")
  end.

(** [v[k]] for a string [k]. *)
Definition subscript (v : value) (k : string) : result value :=
  match v with
  | VDict d =>
      match dict_get d k with
      | Some x => Ok x
      | None => raise KeyError k
      end
  | VList _ => raise TypeError "list indices must be integers or slices, not str"
  | VStr _ => raise TypeError "string indices must be integers, not 'str'"
  | _ => raise TypeError ("'" ++ type_name v ++ "' object is not subscriptable")
  end.

(** [v.values()] *)
Definition values (v : value) : result (list value) :=
  match v with
  | VDict d => Ok (map snd d)
  | _ => raise AttributeError
           ("'" ++ type_name v ++ "' object has no attribute 'values'")
  end.

(** [v.items()] *)
Definition items (v : value) : result (list (string * value)) :=
  match v with
  | VDict d => Ok d
  | _ => raise AttributeError
           ("'" ++ type_name v ++ "' object has no attribute 'items'")
  end.

(** [len(v)] *)
Definition len (v : value) : result Z :=
  match v with
  | VDict d => Ok (Z.of_nat (List.length d))
  | VList l => Ok (Z.of_nat (List.length l))
  | VStr s => Ok (Z.of_nat (String.length s))
  | _ => raise TypeError
           ("object of type '" ++ type_name v ++ "' has no len()")
  end.

(** *** Numbers *)

(** The exact integer [z] as an (unrounded) binary float. *)
Definition SF_of_int (z : Z) : spec_float :=
  match z with
  | Z0 => S754_zero false
  | Zpos p => S754_finite false p 0
  | Zneg p => S754_finite true p 0
  end.

(** [float(z)] for an [int]: rounded to nearest, ties to even;
    [OverflowError] when the rounded value is not finite. *)
Definition float_of_int (z : Z) : result float :=
  match binary_normalize prec emax z 0 false with
  | S754_infinity _ => raise OverflowError "int too large to convert to float"
  | sf => Ok (SF2Prim sf)
  end.

(** [a / b] for two [int]s: the correctly rounded quotient. *)
Definition int_true_div (a b : Z) : result float :=
  if (b =? 0)%Z then raise ZeroDivisionError "division by zero"
  else match SFdiv prec emax (SF_of_int a) (SF_of_int b) with
       | S754_infinity _ =>
           raise OverflowError "integer division result too large for a float"
       | sf => Ok (SF2Prim sf)
       end.

(** The numeric tower as far as the program uses it: [bool] is an
    [int]. *)
Inductive number : Type :=
| Int (z : Z)
| Float (f : float).

Definition number_of (v : value) : option number :=
  match v with
  | VBool b => Some (Int (if b then 1 else 0))
  | VInt z => Some (Int z)
  | VFloat f => Some (Float f)
  | _ => None
  end.

Definition value_of (n : number) : value :=
  match n with
  | Int z => VInt z
  | Float f => VFloat f
  end.

Definition to_float (n : number) : result float :=
  match n with
  | Int z => float_of_int z
  | Float f => Ok f
  end.

(** [a + b] *)
Definition add (a b : number) : result number :=
  match a, b with
  | Int x, Int y => Ok (Int (x + y))
  | _, _ => x ← to_float a; y ← to_float b; Ok (Float (x + y)%float)
  end.

(** [a - b] *)
Definition sub (a b : number) : result number :=
  match a, b with
  | Int x, Int y => Ok (Int (x - y))
  | _, _ => x ← to_float a; y ← to_float b; Ok (Float (x - y)%float)
  end.

(** [a / b] *)
Definition truediv (a b : number) : result number :=
  match a, b with
  | Int x, Int y => q ← int_true_div x y; Ok (Float q)
  | _, _ =>
      x ← to_float a; y ← to_float b;
      if PrimFloat.eqb y 0 then raise ZeroDivisionError "float division by zero"
      else Ok (Float (x / y)%float)
  end.

(** [x > y] and [y > x] for a float [x] and an int [y]: the two are
    compared by their exact values. *)
Definition Z_of_finite (s : bool) (m : positive) : Z :=
  if s then Zneg m else Zpos m.

Definition float_gt_int (x : float) (y : Z) : bool :=
  match Prim2SF x with
  | S754_nan => false
  | S754_infinity s => negb s
  | S754_zero _ => (y <? 0)%Z
  | S754_finite s m e =>
      if (0 <=? e)%Z then (y <? Z_of_finite s m * 2 ^ e)%Z
      else (y * 2 ^ (- e) <? Z_of_finite s m)%Z
  end.

Definition int_gt_float (y : Z) (x : float) : bool :=
  match Prim2SF x with
  | S754_nan => false
  | S754_infinity s => s
  | S754_zero _ => (0 <? y)%Z
  | S754_finite s m e =>
      if (0 <=? e)%Z then (Z_of_finite s m * 2 ^ e <? y)%Z
      else (Z_of_finite s m <? y * 2 ^ (- e))%Z
  end.

(** [a > b] *)
Definition gt (a b : number) : bool :=
  match a, b with
  | Int x, Int y => (y <? x)%Z
  | Float x, Float y => PrimFloat.ltb y x
  | Float x, Int y => float_gt_int x y
  | Int x, Float y => int_gt_float x y
  end.

(** [max(a, b)]: [b] when [b > a], else [a]. *)
Definition max_ (a b : number) : number :=
  if gt b a then b else a.

(** A binary arithmetic operator applied to two values. *)
Definition arith (symbol : string) (op : number -> number -> result number)
    (a b : value) : result number :=
  match number_of a, number_of b with
  | Some x, Some y => op x y
  | _, _ =>
      raise TypeError
        ("unsupported operand type(s) for " ++ symbol ++ ": '"
           ++ type_name a ++ "' and '" ++ type_name b ++ "'")
  end.

(** [sum(f x for x in xs)]: starts from the int [0]; each element is
    computed and added before the next one is looked at.  The additions
    are plain floating-point additions, from left to right. *)
Fixpoint sum_from {A} (acc : number) (f : A -> result value) (xs : list A)
    : result number :=
  match xs with
  | [] => Ok acc
  | x :: xs' =>
      v ← f x;
      acc' ← arith "+" add (value_of acc) v;
      sum_from acc' f xs'
  end.

Definition sum {A} (f : A -> result value) (xs : list A) : result number :=
  sum_from (Int 0) f xs.

(** [round(x, ndigits)] for a float and [ndigits >= 0]: the exact value
    of [x] is rounded to [ndigits] decimal places, ties to even, and the
    resulting decimal is rounded to the nearest float.  An int is
    returned unchanged. *)
Definition div_nearest_even (a b : Z) : Z :=
  let q := (a / b)%Z in
  let r := (a mod b)%Z in
  match (2 * r ?= b)%Z with
  | Lt => q
  | Gt => (q + 1)%Z
  | Eq => if Z.even q then q else (q + 1)%Z
  end.

Definition round_float (x : float) (ndigits : nat) : float :=
  match Prim2SF x with
  | S754_finite s m e =>
      let p := (10 ^ Z.of_nat ndigits)%Z in
      let n := if (0 <=? e)%Z then (Zpos m * 2 ^ e * p)%Z
               else div_nearest_even (Zpos m * p) (2 ^ (- e)) in
      match n with
      | Zpos n' =>
          SF2Prim (SFdiv prec emax (S754_finite s n' 0) (SF_of_int p))
      | _ => SF2Prim (S754_zero s)
      end
  | _ => x
  end.

Definition round_ (n : number) (ndigits : nat) : number :=
  match n with
  | Int z => Int z
  | Float f => Float (round_float f ndigits)
  end.

(** [for x in xs: body x], the loop building up [acc]. *)
Fixpoint for_ {A S} (xs : list A) (acc : S) (body : S -> A -> result S)
    : result S :=
  match xs with
  | [] => Ok acc
  | x :: xs' => acc' ← body acc x; for_ xs' acc' body
  end.

(** [v.split('.')] *)
Definition split_ (sep : ascii) (v : value) : result (list string) :=
  match v with
  | VStr s => Ok (split sep s)
  | _ => raise AttributeError
           ("'" ++ type_name v ++ "' object has no attribute 'split'")
  end.

(** [Path(v)]: the path is kept as the string it was built from. *)
Definition Path (v : value) : result string :=
  match v with
  | VStr s => Ok s
  | _ => raise TypeError
           ("expected str, bytes or os.PathLike object, not " ++ type_name v)
  end.

(** The file system as the program reads it. *)
Record filesystem : Type := FileSystem {
  (** [Path(p).exists()] *)
  exists_ : string -> bool;
  (** [str(Path(p))] *)
  path_str : string -> string;
  (** [Path(p).name] *)
  path_name : string -> string;
  (** [Path(p).stat().st_size] *)
  st_size : string -> Z;
  (** [[str(p) for p in Path(d).glob(pattern)]] *)
  glob : string -> string -> list string;
  (** [open(p, 'r').read()] *)
  read_text : string -> result string;
  (** [json.load(open(p, 'r', encoding='utf-8'))] *)
  json_load : string -> result value
}.

(** [datetime.now().isoformat()]: the [n]-th reading of the clock
    during a call. *)
Record clock : Type := Clock { isoformat_now : nat -> string }.

(** [x / y] for two floats. *)
Definition float_div (x y : float) : result float :=
  if PrimFloat.eqb y 0 then raise ZeroDivisionError "float division by zero"
  else Ok (x / y)%float.

(** What the interpreter provides and this development does not define:
    the parser behind [float(s)] and the shortest-digits printer behind
    [str(x)] for a float. *)
Record runtime : Type := Runtime {
  float_of_str : string -> option float;
  str_of_float : float -> string
}.

(** [float(v)] *)
Definition float_ (rt : runtime) (v : value) : result float :=
  match v with
  | VFloat f => Ok f
  | VInt z => float_of_int z
  | VBool b => Ok (if b then 1 else 0)%float
  | VStr s =>
      match float_of_str rt s with
      | Some f => Ok f
      | None =>
          raise ValueError
            ("could not convert string to float: " ++ repr_str s)
      end
  | _ =>
      raise TypeError
        ("float() argument must be a string or a real number, not '"
           ++ type_name v ++ "'")
  end.

(** [v.lower()] *)
Definition lower_ (v : value) : result string :=
  match v with
  | VStr s => Ok (lower s)
  | _ => raise AttributeError
           ("'" ++ type_name v ++ "' object has no attribute 'lower'")
  end.

(** [sep.join(ws)] *)
Fixpoint join (sep : string) (ws : list string) : string :=
  match ws with
  | [] => EmptyString
  | [w] => w
  | w :: ws' => w ++ sep ++ join sep ws'
  end.

(** [s.endswith(suffix)] *)
Fixpoint endswith (s suffix : string) : bool :=
  String.eqb s suffix ||
  match s with
  | EmptyString => false
  | String _ s' => endswith s' suffix
  end.

(** [repr(v)] and [str(v)] *)
Fixpoint repr_value (rt : runtime) (v : value) : string :=
  match v with
  | VNone => "None"
  | VBool b => if b then "True" else "False"
  | VInt z => str_of_int z
  | VFloat f => str_of_float rt f
  | VStr s => repr_str s
  | VList l =>
      "[" ++ join ", "
               ((fix go (l : list value) : list string :=
                   match l with
                   | [] => []
                   | x :: l' => repr_value rt x :: go l'
                   end) l) ++ "]"
  | VDict d =>
      "{" ++ join ", "
               ((fix go (d : list (string * value)) : list string :=
                   match d with
                   | [] => []
                   | (k, x) :: d' =>
                       (repr_str k ++ ": " ++ repr_value rt x) :: go d'
                   end) d) ++ "}"
  end.

Definition str_value (rt : runtime) (v : value) : string :=
  match v with
  | VStr s => s
  | _ => repr_value rt v
  end.

(** A [dict] of arguments, queried by key only. *)
Abbreviation kwargs := (gmap string value).

(** [args.get(k, d)] *)
Definition get (args : kwargs) (k : string) (d : value) : value :=
  default d (args !! k).

(** *** Effects

    Code that acts on the outside world is an outcome together with the
    trace of what it did, in order. *)
Inductive event : Type :=
| Acquire                                  (* a permit of the request semaphore taken *)
| Release                                  (* ... and given back *)
| Print (line : string)                    (* [print(line)] *)
| Connect (url : value)                    (* a connection asked for by [session.get(url)] *)
| Disconnect                               (* ... and closed *)
| OpenFile (filename : value)              (* [aiofiles.open(filename, 'wb')] asked for *)
| Write (n : nat)                          (* [n] bytes written to the open file *)
| CloseFile.

Inductive io (A : Type) : Type :=
| IO (trace : list event) (r : result A).
Arguments IO {A} trace r.

Definition trace {A} (c : io A) : list event :=
  match c with IO t _ => t end.

Definition outcome {A} (c : io A) : result A :=
  match c with IO _ r => r end.

Definition io_bind {A B} (c : io A) (k : A -> io B) : io B :=
  match c with
  | IO t (Ok a) => match k a with IO t' r => IO (t ++ t') r end
  | IO t (Raise e) => IO t (Raise e)
  end.

#[export] Instance io_mbind : MBind io := fun A B k c => io_bind c k.
#[export] Instance io_mret : MRet io := fun A a => IO [] (Ok a).

Definition emit (e : event) : io unit := IO [e] (Ok tt).

Definition lift {A} (r : result A) : io A := IO [] r.

(** [try: c] with [except] clauses, for effectful code. *)
Fixpoint io_try {A} (c : io A)
    (clauses : list (exc_class * (exn -> io A))) : io A :=
  match c, clauses with
  | IO t (Raise e), (cls, h) :: rest =>
      if issubclass (exn_class e) cls
      then match h e with IO t' r => IO (t ++ t') r end
      else io_try c rest
  | _, _ => c
  end.

(** The exit of a [with] block: [leave] happens whatever the outcome of
    the body. *)
Definition finally_ {A} (body : io A) (leave : event) : io A :=
  match body with
  | IO t r => IO (t ++ [leave]) r
  end.

End py.

Export py.

(** ** The records of [mcp.types] that the server builds

    A tool's input schema is descriptive only: nothing in the server
    reads it, and it is left out of [Tool]. *)

Module mcp.

Record Tool : Type := mkTool {
  tool_name : string;
  tool_description : string
}.


Record PromptArgument : Type := mkPromptArgument {
  argument_name : string;
  argument_description : string;
  required : bool
}.

Record Prompt : Type := mkPrompt {
  prompt_name : string;
  prompt_description : option string;
  arguments : list PromptArgument
}.

Record TextContent : Type := mkTextContent {
  type_ : string;
  text : string
}.

Record CallToolResult : Type := mkCallToolResult {
  content : list TextContent
}.


Record PromptMessage : Type := mkPromptMessage {
  role : string;
  message_content : TextContent
}.

Record GetPromptResult : Type := mkGetPromptResult {
  description : option string;
  messages : list PromptMessage
}.

End mcp.

Export mcp.

(** ** src/tools/calc_tools.py *)

Module calc_tools.

(** An entry of the conversion table: a plain factor or a function. *)
Inductive factor : Type :=
| Scalar (f : float)
| Special (fn : float -> float).

Definition callable (f : factor) : bool :=
  match f with Special _ => true | Scalar _ => false end.

Definition CONVERSION_FACTORS : gmap string factor :=
  list_to_map
    [ ("mm_to_cm", Scalar 0.1);
      ("cm_to_m", Scalar 0.01);
      ("m_to_km", Scalar 0.001);
      ("in_to_ft", Scalar (1 / 12));
      ("ft_to_yd", Scalar (1 / 3));
      ("yd_to_mi", Scalar (1 / 1760));
      ("g_to_kg", Scalar 0.001);
      ("kg_to_lb", Scalar 2.20462);
      ("lb_to_oz", Scalar 16);
      ("celsius_to_fahrenheit", Special (fun c => (c * 9 / 5) + 32)%float);
      ("fahrenheit_to_celsius", Special (fun f => (f - 32) * 5 / 9)%float);
      ("celsius_to_kelvin", Special (fun c => c + 273.15)%float);
      ("kelvin_to_celsius", Special (fun k => k - 273.15)%float) ].

Section with_runtime.
Variable rt : runtime.

Definition calculate_basic (operation : string) (args : kwargs) : result value :=
  try_
    (a ← float_ rt (get args "a" (VInt 0));
     b ← float_ rt (get args "b" (VInt 0));
     result ←
       (if String.eqb operation "add" then Ok (a + b)%float
        else if String.eqb operation "subtract" then Ok (a - b)%float
        else if String.eqb operation "multiply" then Ok (a * b)%float
        else if String.eqb operation "divide" then
          if PrimFloat.eqb b 0 then raise ValueError "Cannot divide by zero"
          else float_div a b
        else raise ValueError ("Unknown operation: " ++ operation));
     Ok (VDict
           [ ("operation", VStr operation);
             ("inputs", VDict [("a", VFloat a); ("b", VFloat b)]);
             ("result", VFloat result);
             ("formatted",
              VStr (str_of_float rt a ++ " " ++ operation ++ " "
                      ++ str_of_float rt b ++ " = " ++ str_of_float rt result)) ]))
    [ (ValueError, fun e => raise ValueError ("Invalid input: " ++ str_of_exn e));
      (Exception, fun e => raise Exception ("Calculation error: " ++ str_of_exn e)) ].

Definition convert_units (args : kwargs) : result value :=
  try_
    (value ← float_ rt (get args "value" (VInt 0));
     from_unit ← lower_ (get args "from_unit" (VStr EmptyString));
     to_unit ← lower_ (get args "to_unit" (VStr EmptyString));
     let conversion_key := from_unit ++ "_to_" ++ to_unit in
     result ←
       match CONVERSION_FACTORS !! conversion_key with
       | Some factor =>
           match factor with
           | Special fn => Ok (fn value)
           | Scalar f => Ok (value * f)%float
           end
       | None =>
           (* Try reverse conversion *)
           let reverse_key := to_unit ++ "_to_" ++ from_unit in
           match CONVERSION_FACTORS !! reverse_key with
           | Some factor =>
               match factor with
               | Special _ =>
                   if contains "celsius" reverse_key
                      && contains "fahrenheit" reverse_key
                   then Ok ((value - 32) * 5 / 9)%float
                   else if contains "fahrenheit" reverse_key
                           && contains "celsius" reverse_key
                   then Ok ((value * 9 / 5) + 32)%float
                   else raise ValueError
                          ("Cannot reverse convert " ++ from_unit
                             ++ " to " ++ to_unit)
               | Scalar f => float_div value f
               end
           | None =>
               raise ValueError
                 ("Conversion from " ++ from_unit ++ " to " ++ to_unit
                    ++ " not supported")
           end
       end;
     Ok (VDict
           [ ("original_value", VFloat value);
             ("from_unit", VStr from_unit);
             ("to_unit", VStr to_unit);
             ("converted_value", VFloat result);
             ("formatted",
              VStr (str_of_float rt value ++ " " ++ from_unit ++ " = "
                      ++ str_of_float rt result ++ " " ++ to_unit)) ]))
    [ (ValueError, fun e => raise ValueError ("Invalid input: " ++ str_of_exn e));
      (Exception, fun e => raise Exception ("Conversion error: " ++ str_of_exn e)) ].

End with_runtime.

Definition get_calculator_tools : list Tool :=
  [ mkTool "add" "Add two numbers together";
    mkTool "subtract" "Subtract second number from first number";
    mkTool "multiply" "Multiply two numbers";
    mkTool "divide" "Divide first number by second number";
    mkTool "power" "Raise number to a power";
    mkTool "sqrt" "Calculate square root of a number";
    mkTool "log" "Calculate logarithm of a number";
    mkTool "sin" "Calculate sine of angle (in degrees)";
    mkTool "cos" "Calculate cosine of angle (in degrees)";
    mkTool "tan" "Calculate tangent of angle (in degrees)";
    mkTool "convert_units" "Convert between different units of measurement" ].

End calc_tools.

(** ** src/tools/file_tools.py: the tools it declares *)

Module file_tools.

Definition get_file_tools : list Tool :=
  [ mkTool "read_file" "Read content from a text file";
    mkTool "write_file" "Write content to a text file";
    mkTool "list_directory" "List contents of a directory" ].

End file_tools.

(** ** src/tools/data_tools.py *)

Module data_tools.

(** [_extract_by_path], local to [process_json].  The recursive call on
    a list element sits inside the [try], so a [ValueError] from deeper
    down is reported again, with the current segment. *)
Fixpoint _extract_by_path (obj : value) (path_parts : list string)
    : result value :=
  match path_parts with
  | [] => Ok obj
  | current :: remaining =>
      match obj with
      | VDict d =>
          match dict_get d current with
          | Some v => _extract_by_path v remaining
          | None => raise KeyError ("Key '" ++ current ++ "' not found")
          end
      | VList l =>
          try_
            (index ← int_ current;
             if (0 <=? index)%Z && (index <? Z.of_nat (List.length l))%Z
             then match l !! Z.to_nat index with
                  | Some v => _extract_by_path v remaining
                  | None => raise IndexError "list index out of range"
                  end
             else raise IndexError
                    ("Index " ++ str_of_int index ++ " out of range"))
            [ (ValueError,
               fun _ => raise ValueError ("Invalid array index: " ++ current)) ]
      | _ =>
          raise TypeError
            ("Cannot access '" ++ current ++ "' on " ++ type_name obj)
      end
  end.

(** [result.update(more)], for keys that [result] does not hold yet. *)
Definition update (result more : list (string * value)) : value :=
  VDict (result ++ more)%list.

Section process_json.
Variable fs : filesystem.
Variable clk : clock.
(** [_analyze_structure] is left open: the order of its [element_types]
    is that of a [set] of strings, which the interpreter fixes anew at
    each start. *)
Variable _analyze_structure : value -> value.

Definition process_json (args : kwargs) : result value :=
  try_
    (let file_path := get args "file_path" (VStr EmptyString) in
     let operation := get args "operation" (VStr "analyze") in
     let json_path := get args "json_path" (VStr EmptyString) in
     if negb (truthy file_path) then raise ValueError "file_path is required"
     else
       path ← Path file_path;
       if negb (exists_ fs path)
       then raise ValueError ("File not found: " ++ path)
       else
         data ← try_ (json_load fs path)
                  [ (JSONDecodeError,
                     fun e => raise ValueError ("Invalid JSON: " ++ str_of_exn e)) ];
         let result :=
           [ ("file_path", VStr (path_str fs path));
             ("operation", operation);
             ("file_size", VInt (st_size fs path));
             ("processing_timestamp", VStr (isoformat_now clk 0)) ] in
         if is_str "analyze" operation then
           Ok (update result
                 [ ("structure", _analyze_structure data);
                   ("root_type", VStr (type_name data));
                   ("is_valid", VBool true) ])
         else if is_str "extract" operation && truthy json_path then
           path_parts ← split_ "." json_path;
           extracted ← _extract_by_path data path_parts;
           Ok (update result
                 [ ("json_path", json_path);
                   ("extracted_data", extracted);
                   ("extracted_type", VStr (type_name extracted)) ])
         else if is_str "transform" operation then
           match data with
           | VList l =>
               Ok (update result
                     [ ("original_length", VInt (Z.of_nat (List.length l)));
                       ("transformed_data", VList (take 10 l));
                       ("transformation", VStr "truncate_to_10") ])
           | VDict d =>
               Ok (update result
                     [ ("original_keys", VList (map (fun kv => VStr (fst kv)) d));
                       ("transformed_data",
                        VDict (List.filter
                                 (fun kv => negb (startswith (fst kv) "_")) d));
                       ("transformation", VStr "remove_private_keys") ])
           | _ => Ok (VDict result)
           end
         else Ok (VDict result))
    [ (Exception,
       fun e => raise Exception ("JSON processing failed: " ++ str_of_exn e)) ].

End process_json.

(** The helpers of [generate_report] that the detailed report uses. *)

Definition _calculate_quality_score (data : value) : result number :=
  has ← contains_key data "missing_values";
  if negb has then Ok (Int 100)
  else
    missing_values ← subscript data "missing_values";
    vs ← values missing_values;
    total_missing ← sum (fun v => subscript v "percentage") vs;
    missing_values ← subscript data "missing_values";
    n ← len missing_values;
    avg_missing ← truediv total_missing (Int n);
    d ← sub (Int 100) avg_missing;
    let quality_score := max_ (Int 0) d in
    Ok (round_ quality_score 2).

Definition _analyze_fields (data : value) : result value :=
  has ← contains_key data "missing_values";
  if negb has then Ok (VDict [])
  else
    missing_values ← subscript data "missing_values";
    its ← items missing_values;
    field_analysis ←
      for_ its []
        (fun field_analysis '(field, missing_info) =>
           p ← subscript missing_info "percentage";
           completeness ← arith "-" sub (VInt 100) p;
           missing_count ← subscript missing_info "count";
           Ok (field_analysis ++
                 [ (field,
                    VDict [ ("completeness", value_of completeness);
                            ("missing_count", missing_count) ]) ])%list);
    Ok (VDict field_analysis).

Section generate_report.
Variable clk : clock.
(** The summary and insights reports and the three renderings of a
    report are left open: no property below depends on them. *)
Variable _generate_summary_report : value -> result value.
Variable _generate_insights_report : value -> result value.
Variable _format_as_markdown : value -> result string.
Variable json_dumps : value -> result string.
Variable str : value -> string.

Definition _generate_detailed_report (data : value) : result value :=
  let generated_at := isoformat_now clk 0 in
  data_quality_score ← _calculate_quality_score data;
  field_analysis ← _analyze_fields data;
  Ok (VDict
        [ ("report_type", VStr "detailed");
          ("generated_at", VStr generated_at);
          ("full_analysis", data);
          ("data_quality_score", value_of data_quality_score);
          ("field_analysis", field_analysis) ]).

Definition generate_report (args : kwargs) : result value :=
  try_
    (let data := get args "data" (VDict []) in
     let report_type := get args "report_type" (VStr "summary") in
     let format_type := get args "format" (VStr "json") in
     if negb (truthy data) then raise ValueError "data is required"
     else
       report_data ←
         (if is_str "summary" report_type then _generate_summary_report data
          else if is_str "detailed" report_type then _generate_detailed_report data
          else if is_str "insights" report_type then _generate_insights_report data
          else raise ValueError ("Unknown report type: " ++ str report_type));
       formatted_output ←
         (if is_str "markdown" format_type then _format_as_markdown report_data
          else if is_str "json" format_type then json_dumps report_data
          else Ok (str report_data));
       Ok (VDict
             [ ("report_type", report_type);
               ("format", format_type);
               ("report_data", report_data);
               ("formatted_output", VStr formatted_output);
               ("generation_timestamp", VStr (isoformat_now clk 1)) ]))
    [ (Exception,
       fun e => raise Exception ("Report generation failed: " ++ str_of_exn e)) ].

End generate_report.

Definition get_data_tools : list Tool :=
  [ mkTool "analyze_csv" "Analyze a CSV file and return statistics";
    mkTool "process_json" "Process and analyze a JSON file";
    mkTool "generate_report" "Generate a data report from analysis results" ].

End data_tools.

(** ** src/tools/web_tools.py *)

Module web_tools.

Definition ALLOWED_DOMAINS : list string :=
  ["example.com"; "httpbin.org"; "jsonplaceholder.typicode.com"].
Definition MAX_RESPONSE_SIZE : Z := 1024 * 1024.
Definition REQUEST_TIMEOUT : Z := 30.
Definition MAX_CONCURRENT_REQUESTS : Z := 5.

(** What [urlparse] returns, as far as it is read. *)
Record ParseResult : Type := mkParseResult {
  scheme : string;
  netloc : string;
  path : string
}.

(** A response, as far as it is read: its status, its [content-length]
    and [content-type] headers, and the sizes of the chunks that
    [iter_chunked] yields (a chunk may fail to arrive). *)
Record ClientResponse : Type := mkClientResponse {
  status : Z;
  content_length : option string;
  content_type : string;
  chunks : list (result nat)
}.

(** The libraries and the network behind them. *)
Record web : Type := Web {
  urlparse : value -> result ParseResult;
  session_get : value -> result ClientResponse;
  aiofiles_open : value -> result unit
}.

Section with_web.
Variable w : web.

Definition _validate_url (url : value) : io value :=
  io_try
    (parsed ← lift (urlparse w url);
     (* Check protocol *)
     if negb (bool_decide (scheme parsed ∈ ["http"; "https"]))
     then lift (raise ValueError "Only HTTP and HTTPS URLs are allowed")
     else
       (* Check domain: any domain is allowed, but it is reported *)
       (if negb (existsb (endswith (netloc parsed)) ALLOWED_DOMAINS)
        then emit (Print ("Warning: Accessing domain not in whitelist: "
                            ++ netloc parsed))
        else mret tt);;
       mret url)
    [ (Exception,
       fun e => lift (raise ValueError ("Invalid URL: " ++ str_of_exn e))) ].

(** The loop of [download_file] over the chunks of the response. *)
Fixpoint download_chunks (chunks : list (result nat)) (downloaded_size : Z)
    : io Z :=
  match chunks with
  | [] => mret downloaded_size
  | chunk :: rest =>
      n ← lift chunk;
      emit (Write n);;
      let downloaded_size := (downloaded_size + Z.of_nat n)%Z in
      if (downloaded_size >? MAX_RESPONSE_SIZE)%Z
      then lift (raise ValueError
                   ("File too large: " ++ str_of_int downloaded_size ++ " bytes"))
      else download_chunks rest downloaded_size
  end.

(** The transfer proper: what [download_file] does once the URL and
    the filename have passed its checks. *)
Definition transfer (validated_url filename : value) : io value :=
  emit (Connect validated_url);;
  response ← lift (session_get w validated_url);
  finally_
    (if negb (status response =? 200)%Z
     then lift (raise Exception
                  ("Download failed with status "
                     ++ str_of_int (status response)))
     else
       (* Check file size *)
       (match content_length response with
        | Some cl =>
            if truthy (VStr cl) then
              n ← lift (int_ cl);
              if (n >? MAX_RESPONSE_SIZE)%Z
              then lift (raise ValueError
                           ("File too large: " ++ cl ++ " bytes"))
              else mret tt
            else mret tt
        | None => mret tt
        end);;
       (* Download file *)
       emit (OpenFile filename);;
       lift (aiofiles_open w filename);;
       downloaded_size ←
         finally_ (download_chunks (chunks response) 0) CloseFile;
       mret (VDict
               [ ("url", validated_url);
                 ("filename", filename);
                 ("size", VInt downloaded_size);
                 ("content_type", VStr (content_type response));
                 ("success", VBool true) ]))
    Disconnect.

Definition download_file (args : kwargs) : io value :=
  emit Acquire;;
  finally_
    (io_try
       (let url := get args "url" (VStr EmptyString) in
        let filename := get args "filename" (VStr EmptyString) in
        if negb (truthy url) then lift (raise ValueError "url is required")
        else
          validated_url ← _validate_url url;
          (* If no filename provided, extract from URL *)
          filename ←
            (if negb (truthy filename) then
               parsed ← lift (urlparse w validated_url);
               let filename := List.last (split "/" (path parsed)) EmptyString in
               mret (VStr (if String.eqb filename EmptyString
                           then "downloaded_file" else filename))
             else mret filename);
          (* Validate filename *)
          dots ← lift (contains_key filename "..");
          invalid ← (if dots : bool then mret true
                     else lift (contains_key filename "/"));
          if invalid : bool then lift (raise ValueError "Invalid filename")
          else transfer validated_url filename)
       [ (Exception,
          fun e => lift (raise Exception ("Download failed: " ++ str_of_exn e))) ])
    Release.

End with_web.

Definition get_web_tools : list Tool :=
  [ mkTool "fetch_webpage" "Fetch and parse a webpage";
    mkTool "search_web" "Search the web for information (simulated)";
    mkTool "download_file" "Download a file from a URL" ].

End web_tools.

(** ** src/resources/file_resources.py *)

Module file_resources.

Section with_filesystem.
Variable fs : filesystem.


End with_filesystem.

End file_resources.

(** ** src/prompts/analysis_prompts.py *)

Module analysis_prompts.

Definition get_analysis_prompts : list Prompt :=
  [ mkPrompt "analyze_data"
      (Some "Analyze data and provide insights on {data_type} with focus on {analysis_focus}")
      [ mkPromptArgument "data_type"
          "Type of data to analyze (e.g., CSV, JSON, numerical)" true;
        mkPromptArgument "analysis_focus"
          "Focus area for analysis (e.g., trends, anomalies, patterns)" true;
        mkPromptArgument "context"
          "Additional context about the data" false ];
    mkPrompt "code_review"
      (Some "Review {language} code for {review_type} and provide suggestions")
      [ mkPromptArgument "language"
          "Programming language (e.g., Python, JavaScript, Java)" true;
        mkPromptArgument "review_type"
          "Type of review (e.g., security, performance, style)" true;
        mkPromptArgument "complexity_level"
          "Code complexity level (beginner, intermediate, advanced)" false ];
    mkPrompt "system_troubleshooting"
      (Some "Troubleshoot {system_type} issues with {error_symptoms}")
      [ mkPromptArgument "system_type"
          "Type of system (e.g., web server, database, network)" true;
        mkPromptArgument "error_symptoms"
          "Observed error symptoms or issues" true;
        mkPromptArgument "urgency"
          "Urgency level (low, medium, high, critical)" false ];
    mkPrompt "documentation_generator"
      (Some "Generate {doc_type} documentation for {subject}")
      [ mkPromptArgument "doc_type"
          "Type of documentation (API, user guide, technical specs)" true;
        mkPromptArgument "subject"
          "Subject to document (function, module, system)" true;
        mkPromptArgument "audience"
          "Target audience (developers, users, administrators)" false;
        mkPromptArgument "format"
          "Output format (markdown, HTML, plain text)" false ];
    mkPrompt "performance_analysis"
      (Some "Analyze performance metrics for {system_component} and identify optimization opportunities")
      [ mkPromptArgument "system_component"
          "System component to analyze (API, database, frontend)" true;
        mkPromptArgument "metrics_data"
          "Performance metrics data or description" true;
        mkPromptArgument "baseline_period"
          "Baseline period for comparison" false ] ].

End analysis_prompts.

(** ** src/server.py *)

Module server.

(** What the server runs on, and the handlers of the tool modules whose
    bodies are not modelled: the server only calls them. *)
Record host : Type := Host {
  host_runtime : runtime;
  host_filesystem : filesystem;
  host_clock : clock;
  host_web : web_tools.web;
  calculate_advanced : string -> kwargs -> result value;
  read_file_content : kwargs -> result value;
  write_file_content : kwargs -> result value;
  list_directory : kwargs -> result value;
  fetch_webpage : kwargs -> result value;
  search_web : kwargs -> result value;
  analyze_csv : kwargs -> result value;
  _analyze_structure : value -> value;
  _generate_summary_report : value -> result value;
  _generate_insights_report : value -> result value;
  _format_as_markdown : value -> result string;
  json_dumps : value -> result string
}.

(** [for x in xs: registry[key(x)] = x] *)
Definition register {A} (key : A -> string) (xs : list A)
    (registry : gmap string A) : gmap string A :=
  foldl (fun registry x => <[key x := x]> registry) registry xs.

Section MCPServer.
Variable h : host.

Definition calculate_basic := calc_tools.calculate_basic (host_runtime h).
Definition convert_units := calc_tools.convert_units (host_runtime h).
Definition download_file (args : kwargs) : result value :=
  outcome (web_tools.download_file (host_web h) args).
Definition process_json :=
  data_tools.process_json (host_filesystem h) (host_clock h)
    (_analyze_structure h).
Definition generate_report :=
  data_tools.generate_report (host_clock h)
    (_generate_summary_report h) (_generate_insights_report h)
    (_format_as_markdown h) (json_dumps h) (str_value (host_runtime h)).

(** [self.tools], [self.resources] and [self.prompts] once [__init__]
    has run. *)
Definition tools : gmap string Tool :=
  register tool_name data_tools.get_data_tools
    (register tool_name web_tools.get_web_tools
       (register tool_name file_tools.get_file_tools
          (register tool_name calc_tools.get_calculator_tools ∅))).


Definition prompts : gmap string Prompt :=
  register prompt_name analysis_prompts.get_analysis_prompts ∅.

Definition text_result (s : string) : CallToolResult :=
  mkCallToolResult [mkTextContent "text" s].

Definition handle_call_tool (tool_name : string) (arguments : option kwargs)
    : result CallToolResult :=
  let arguments := default ∅ arguments in
  try_
    ((* Route to appropriate tool handler *)
     result ←
       (if bool_decide (tool_name ∈ ["add"; "subtract"; "multiply"; "divide"])
        then calculate_basic tool_name arguments
        else if bool_decide
                  (tool_name ∈ ["power"; "sqrt"; "log"; "sin"; "cos"; "tan"])
        then calculate_advanced h tool_name arguments
        else if String.eqb tool_name "convert_units" then convert_units arguments
        else if String.eqb tool_name "read_file" then read_file_content h arguments
        else if String.eqb tool_name "write_file" then write_file_content h arguments
        else if String.eqb tool_name "list_directory" then list_directory h arguments
        else if String.eqb tool_name "fetch_webpage" then fetch_webpage h arguments
        else if String.eqb tool_name "search_web" then search_web h arguments
        else if String.eqb tool_name "download_file" then download_file arguments
        else if String.eqb tool_name "analyze_csv" then analyze_csv h arguments
        else if String.eqb tool_name "process_json" then process_json arguments
        else if String.eqb tool_name "generate_report" then generate_report arguments
        else raise ValueError ("Unknown tool: " ++ tool_name));
     Ok (text_result (str_value (host_runtime h) result)))
    [ (Exception,
       fun e => Ok (text_result ("Error: " ++ str_of_exn e))) ].


(** The template substitution of [handle_get_prompt]. *)
Definition substitute (description : string)
    (arguments : list (string * value)) : string :=
  foldl (fun description '(key, value) =>
           replace ("{" ++ key ++ "}") (str_value (host_runtime h) value)
             description)
        description arguments.

Definition handle_get_prompt (prompt_name : string)
    (arguments : option (list (string * value))) : result GetPromptResult :=
  let arguments := default [] arguments in
  match prompts !! prompt_name with
  | None => raise ValueError ("Prompt not found: " ++ prompt_name)
  | Some prompt =>
      (* Simple template substitution *)
      let description :=
        match prompt_description prompt with
        | Some d =>
            if negb (String.eqb d EmptyString)
            then Some (substitute d arguments)
            else Some d
        | None => None
        end in
      Ok (mkGetPromptResult description
            [ mkPromptMessage "user"
                (mkTextContent "text" (default EmptyString description)) ])
  end.

End MCPServer.

End server.

(** ** src/tools/calc_tools.py: [calculate_advanced] *)

Module advanced.

(** The built-in [pow] and the functions of [math] that the development
    does not define.  [pow] answers with a value, since the power of a
    negative number may be a complex one; [log] is given the base as it
    comes in the arguments. *)
Record libm : Type := Libm {
  pow : float -> float -> result value;
  log : float -> value -> result float;
  sin : float -> result float;
  cos : float -> result float;
  tan : float -> result float
}.

(** [math.e] and [math.pi] *)
Definition e : float := 2.718281828459045.
Definition pi : float := 3.141592653589793.

(** [math.sqrt]: the correctly rounded square root; a domain error for
    a negative number. *)
Definition sqrt (x : float) : result float :=
  if PrimFloat.ltb x 0 then raise ValueError "math domain error"
  else Ok (PrimFloat.sqrt x).

(** [math.radians] *)
Definition radians (x : float) : float := (x * (pi / 180))%float.

Section with_runtime.
Variable rt : runtime.
Variable m : libm.

Definition calculate_advanced (operation : string) (args : kwargs)
    : result value :=
  try_
    (x ← float_ rt (get args "x" (VInt 0));
     result ←
       (if String.eqb operation "power" then
          y ← float_ rt (get args "y" (VInt 2));
          pow m x y
        else if String.eqb operation "sqrt" then
          if PrimFloat.ltb x 0
          then raise ValueError "Cannot take square root of negative number"
          else r ← sqrt x; Ok (VFloat r)
        else if String.eqb operation "log" then
          if PrimFloat.leb x 0
          then raise ValueError "Cannot take logarithm of non-positive number"
          else
            let base := get args "base" (VFloat e) in
            r ← log m x base; Ok (VFloat r)
        else if String.eqb operation "sin" then
          r ← sin m (radians x); Ok (VFloat r)
        else if String.eqb operation "cos" then
          r ← cos m (radians x); Ok (VFloat r)
        else if String.eqb operation "tan" then
          r ← tan m (radians x); Ok (VFloat r)
        else raise ValueError ("Unknown operation: " ++ operation));
     Ok (VDict
           [ ("operation", VStr operation);
             ("input", VFloat x);
             ("result", result);
             ("formatted",
              VStr (operation ++ "(" ++ str_of_float rt x ++ ") = "
                      ++ str_value rt result)) ]))
    [ (ValueError, fun e => raise ValueError ("Invalid input: " ++ str_of_exn e));
      (Exception, fun e => raise Exception ("Calculation error: " ++ str_of_exn e)) ].

End with_runtime.

End advanced.

(** ** src/tools/file_tools.py: the checks on a path *)

Module file_paths.

(** The two sets of the module, as lists: the first is only queried,
    the second is iterated over, in an order that the interpreter
    chooses. *)
Definition ALLOWED_EXTENSIONS : list string :=
  [".txt"; ".md"; ".json"; ".csv"; ".log"; ".py"; ".js"; ".html"; ".css"].
Definition RESTRICTED_PATHS : list string :=
  ["/etc"; "/usr"; "/bin"; "/sbin"; "/var"; "/root"; "/home"].

(** [pathlib], as far as the checks use it: [str(Path(v).resolve())]
    and [Path(p).suffix]. *)
Record pathlib : Type := Pathlib {
  resolve : value -> result string;
  suffix : string -> string
}.

Section with_pathlib.
Variable pl : pathlib.
(** The order in which the set [RESTRICTED_PATHS] is iterated over. *)
Variable order : list string.

Definition _validate_path (file_path : value) : result string :=
  try_
    (path ← resolve pl file_path;
     (* Security: Check if path is within allowed directories *)
     for_ order tt
       (fun _ restricted =>
          if startswith path restricted
          then raise ValueError ("Access to " ++ restricted ++ " is restricted")
          else Ok tt);;
     (* Security: Check for path traversal attempts *)
     if contains ".." path
     then raise ValueError "Path traversal not allowed"
     else Ok path)
    [ (Exception, fun e => raise ValueError ("Invalid path: " ++ str_of_exn e)) ].

Definition _check_file_extension (file_path : string) : bool :=
  bool_decide (lower (suffix pl file_path) ∈ ALLOWED_EXTENSIONS).

End with_pathlib.

End file_paths.

(** ** src/tools/data_tools.py: the summary report *)

Module reports.

(** [a > n] for a value and an [int]: only a number is ordered with an
    [int]. *)
Definition above (a : value) (n : Z) : result bool :=
  match number_of a with
  | Some x => Ok (gt x (Int n))
  | None =>
      raise TypeError
        ("'>' not supported between instances of '" ++ type_name a
           ++ "' and 'int'")
  end.

(** [[x for x in xs if keep x]], the condition being computed for each
    element in turn. *)
Fixpoint comprehension {A} (keep : A -> result bool) (xs : list A)
    : result (list A) :=
  match xs with
  | [] => Ok []
  | x :: xs' =>
      b ← keep x;
      kept ← comprehension keep xs';
      Ok (if b : bool then x :: kept else kept)
  end.

Section with_clock.
Variable clk : clock.
(** [a > b] for two values that are not both numbers: the ordering of
    strings and of lists, left to the interpreter. *)
Variable ordering : value -> value -> result bool.

(** [a > b] *)
Definition greater (a b : value) : result bool :=
  match number_of a, number_of b with
  | Some x, Some y => Ok (gt x y)
  | _, _ => ordering a b
  end.

(** [_generate_summary_report], local to [generate_report]. *)
Definition _generate_summary_report (data : value) : result value :=
  let generated_at := isoformat_now clk 0 in
  (* Basic overview *)
  has ← contains_key data "total_rows";
  overview ←
    (if has : bool
     then total_rows ← subscript data "total_rows";
          Ok [("total_records", total_rows)]
     else Ok []);
  has ← contains_key data "total_columns";
  overview ←
    (if has : bool
     then total_columns ← subscript data "total_columns";
          Ok (overview ++ [("total_fields", total_columns)])%list
     else Ok overview);
  (* Key findings *)
  has ← contains_key data "missing_values";
  key_findings ←
    (if has : bool then
       missing_values ← subscript data "missing_values";
       its ← items missing_values;
       high_missing ←
         comprehension
           (fun kv => p ← subscript (snd kv) "percentage"; above p 20)
           its;
       if truthy (VDict high_missing)
       then Ok [ VDict [ ("type", VStr "data_quality");
                         ("finding", VStr "High missing values detected");
                         ("details", VDict high_missing) ] ]
       else Ok []
     else Ok []);
  has ← contains_key data "numeric_statistics";
  key_findings ←
    (if has : bool then
       numeric_statistics ← subscript data "numeric_statistics";
       its ← items numeric_statistics;
       for_ its key_findings
         (fun key_findings '(col, stats) =>
            std ← subscript stats "std";
            mean ← subscript stats "mean";
            high ← greater std mean;
            if high : bool then
              mean ← subscript stats "mean";
              std ← subscript stats "std";
              std' ← subscript stats "std";
              mean' ← subscript stats "mean";
              coefficient_of_variation ← arith "/" truediv std' mean';
              Ok (key_findings ++
                    [ VDict
                        [ ("type", VStr "statistical");
                          ("finding", VStr ("High variability in " ++ col));
                          ("details",
                           VDict
                             [ ("mean", mean);
                               ("std", std);
                               ("coefficient_of_variation",
                                value_of coefficient_of_variation) ]) ] ])%list
            else Ok key_findings)
     else Ok key_findings);
  (* Recommendations *)
  has ← contains_key data "missing_values";
  recommendations ←
    (if has : bool then
       missing_values ← subscript data "missing_values";
       its ← items missing_values;
       high_missing_fields ←
         comprehension
           (fun kv => p ← subscript (snd kv) "percentage"; above p 10)
           its;
       if truthy (VList (map (fun kv => VStr (fst kv)) high_missing_fields))
       then Ok [ VDict
                   [ ("type", VStr "data_cleaning");
                     ("action", VStr "Address missing values");
                     ("affected_fields",
                      VList (map (fun kv => VStr (fst kv))
                               high_missing_fields)) ] ]
       else Ok []
     else Ok []);
  Ok (VDict
        [ ("report_type", VStr "summary");
          ("generated_at", VStr generated_at);
          ("overview", VDict overview);
          ("key_findings", VList key_findings);
          ("recommendations", VList recommendations) ]).

End with_clock.

End reports.

(** ** Vocabulary of the properties *)

Module spec.

(** The arguments of a [convert_units] call. *)
Definition units_args (v : value) (from_unit to_unit : string) : kwargs :=
  <["value" := v]>
    (<["from_unit" := VStr from_unit]> (<["to_unit" := VStr to_unit]> ∅)).

(** The [converted_value] of what [convert_units] returns. *)
Definition converted_value (r : result value) : option float :=
  match r with
  | Ok (VDict d) =>
      match dict_get d "converted_value" with
      | Some (VFloat f) => Some f
      | _ => None
      end
  | _ => None
  end.

(** The arguments of a basic operation with each absent operand put in
    as the int [0]. *)
Definition with_operands (args : kwargs) : kwargs :=
  <["a" := get args "a" (VInt 0)]> (<["b" := get args "b" (VInt 0)]> args).

(** What a basic operation returns on operands [a] and [b]. *)
Definition basic_result (rt : runtime) (operation : string) (a b result : float)
    : value :=
  VDict
    [ ("operation", VStr operation);
      ("inputs", VDict [("a", VFloat a); ("b", VFloat b)]);
      ("result", VFloat result);
      ("formatted",
       VStr (str_of_float rt a ++ " " ++ operation ++ " "
               ++ str_of_float rt b ++ " = " ++ str_of_float rt result)) ].

(** The path walk of [extract]: [reaches obj path v] when following
    [path] from [obj], a key at an object and an index at an array,
    ends at [v]. *)
Inductive reaches : value -> list string -> value -> Prop :=
| reaches_here obj :
    reaches obj [] obj
| reaches_key d k rest v r :
    dict_get d k = Some v ->
    reaches v rest r ->
    reaches (VDict d) (k :: rest) r
| reaches_index l k rest i v r :
    int_of_str k = Some (Z.of_nat i) ->
    l !! i = Some v ->
    reaches v rest r ->
    reaches (VList l) (k :: rest) r.

(** The ways in which the walk fails. *)
Inductive extract_error : Set :=
| PathNotFound
| IndexOutOfRange
| InvalidPathSegment
| NotAContainer.

Definition error_class (k : extract_error) : exc_class :=
  match k with
  | PathNotFound => KeyError
  | IndexOutOfRange => IndexError
  | InvalidPathSegment => ValueError
  | NotAContainer => TypeError
  end.

Definition is_container (v : value) : bool :=
  match v with VDict _ | VList _ => true | _ => false end.

Inductive fails : value -> list string -> extract_error -> Prop :=
| fails_key d k rest :
    dict_get d k = None ->
    fails (VDict d) (k :: rest) PathNotFound
| fails_index l k rest i :
    int_of_str k = Some i ->
    ~ (0 <= i < Z.of_nat (List.length l))%Z ->
    fails (VList l) (k :: rest) IndexOutOfRange
| fails_segment l k rest :
    int_of_str k = None ->
    fails (VList l) (k :: rest) InvalidPathSegment
| fails_scalar obj k rest :
    is_container obj = false ->
    fails obj (k :: rest) NotAContainer
| fails_under_key d k rest v e :
    dict_get d k = Some v ->
    fails v rest e ->
    fails (VDict d) (k :: rest) e
| fails_under_index l k rest i v e :
    int_of_str k = Some (Z.of_nat i) ->
    l !! i = Some v ->
    fails v rest e ->
    fails (VList l) (k :: rest) e.



(** The missing percentage entered for a column. *)
Definition percentage_of (column : string * value) : option number :=
  match snd column with
  | VDict info =>
      match dict_get info "percentage" with
      | Some p => number_of p
      | None => None
      end
  | _ => None
  end.

(** The quality score in the words of the specification: 100 minus the
    average of the percentages, floored at 0. *)
Fixpoint total (acc : number) (ps : list number) : result number :=
  match ps with
  | [] => Ok acc
  | p :: ps' => acc' ← add acc p; total acc' ps'
  end.

Definition average (ps : list number) : result number :=
  t ← total (Int 0) ps;
  truediv t (Int (Z.of_nat (List.length ps))).

Definition quality_score (ps : list number) : result number :=
  avg ← average ps;
  d ← sub (Int 100) avg;
  Ok (max_ (Int 0) d).

(** The events that reach the network or the disk. *)
Definition reaches_outside (e : event) : bool :=
  match e with
  | Connect _ | OpenFile _ | Write _ => true
  | _ => false
  end.

(** A trace in which nothing reaches the network or the disk. *)
Definition quiet (t : list event) : bool :=
  forallb (fun e => negb (reaches_outside e)) t.

(** The arguments of a [download_file] call. *)
Definition download_args (url filename : string) : kwargs :=
  <["url" := VStr url]> (<["filename" := VStr filename]> ∅).


(** The placeholder of a key, [{key}]. *)
Definition token (key : string) : string := String "{" (key ++ "}").




(** The registry of the specification: the handler of each tool. *)
Definition handlers (h : server.host)
    : list (string * (kwargs -> result value)) :=
  [ ("add", server.calculate_basic h "add");
    ("subtract", server.calculate_basic h "subtract");
    ("multiply", server.calculate_basic h "multiply");
    ("divide", server.calculate_basic h "divide");
    ("power", server.calculate_advanced h "power");
    ("sqrt", server.calculate_advanced h "sqrt");
    ("log", server.calculate_advanced h "log");
    ("sin", server.calculate_advanced h "sin");
    ("cos", server.calculate_advanced h "cos");
    ("tan", server.calculate_advanced h "tan");
    ("convert_units", server.convert_units h);
    ("read_file", server.read_file_content h);
    ("write_file", server.write_file_content h);
    ("list_directory", server.list_directory h);
    ("fetch_webpage", server.fetch_webpage h);
    ("search_web", server.search_web h);
    ("download_file", server.download_file h);
    ("analyze_csv", server.analyze_csv h);
    ("process_json", server.process_json h);
    ("generate_report", server.generate_report h) ].

Fixpoint assoc {A} (k : string) (l : list (string * A)) : option A :=
  match l with
  | [] => None
  | (k', a) :: l' => if String.eqb k' k then Some a else assoc k l'
  end.

Definition handler_of (h : server.host) (name : string)
    : option (kwargs -> result value) :=
  assoc name (handlers h).

(** The outcome of looking the tool up and calling its handler. *)
Definition dispatch (h : server.host) (name : string) (args : kwargs)
    : result value :=
  match handler_of h name with
  | Some handler => handler args
  | None => raise ValueError ("Unknown tool: " ++ name)
  end.

(** The text of the envelope for an outcome. *)
Definition envelope_text (h : server.host) (c : result value) : string :=
  match c with
  | Ok r => str_value (server.host_runtime h) r
  | Raise e => "Error: " ++ str_of_exn e
  end.

(** The arguments of a basic operation. *)
Definition operands (a b : value) : kwargs :=
  <["a" := a]> (<["b" := b]> ∅).

(** The detailed report on [data] with the score [q]. *)
Definition detailed_report (clk : clock) (data : value) (q : number)
    (field_analysis : value) : value :=
  VDict
    [ ("report_type", VStr "detailed");
      ("generated_at", VStr (isoformat_now clk 0));
      ("full_analysis", data);
      ("data_quality_score", value_of q);
      ("field_analysis", field_analysis) ].

(** [s[:n]] *)
Fixpoint take_string (n : nat) (s : string) : string :=
  match n, s with
  | S n', String c s' => String c (take_string n' s')
  | _, _ => EmptyString
  end.

(** Whether the key [k] reads [u_to_u] for some unit [u]. *)
Definition same_unit_shape (k : string) : bool :=
  existsb
    (fun n => let u := take_string n k in String.eqb (u ++ "_to_" ++ u) k)
    (seq 0 (S (String.length k))).

(** The ways to read the key [k] as [a_to_b]. *)
Definition splits (k : string) : list (string * string) :=
  flat_map
    (fun n => if startswith (drop n k) "_to_"
              then [(take_string n k, drop (n + 4) k)] else [])
    (seq 0 (S (String.length k))).

(** The pairs of units that the table has an entry for, and whether a
    conversion between two units can use one, in either direction. *)
Definition conversion_pairs : list (string * string) :=
  flat_map (fun entry => splits (fst entry))
    (map_to_list calc_tools.CONVERSION_FACTORS).



(** The function of a basic operation that always succeeds. *)
Definition arithmetic (operation : string) : option (float -> float -> float) :=
  if String.eqb operation "add" then Some PrimFloat.add
  else if String.eqb operation "subtract" then Some PrimFloat.sub
  else if String.eqb operation "multiply" then Some PrimFloat.mul
  else None.

(** The [result] of what a calculator operation returns. *)
Definition result_of (r : result value) : option value :=
  match r with
  | Ok (VDict d) => dict_get d "result"
  | _ => None
  end.

(** Whether a basic operation on two floats has a value: the three
    operations that always have one, and a division by anything that
    does not compare equal to zero. *)
Definition defined (operation : string) (b : float) : bool :=
  match arithmetic operation with
  | Some _ => true
  | None => String.eqb operation "divide" && negb (PrimFloat.eqb b 0)
  end.

(** The fields that every answer of [process_json] starts with. *)
Definition base_result (fs : filesystem) (clk : clock) (file : string)
    (operation : value) : list (string * value) :=
  [ ("file_path", VStr (path_str fs file));
    ("operation", operation);
    ("file_size", VInt (st_size fs file));
    ("processing_timestamp", VStr (isoformat_now clk 0)) ].

(** The arguments of a [process_json] call with an operation. *)
Definition json_args (file operation : string) : kwargs :=
  <["file_path" := VStr file]> (<["operation" := VStr operation]> ∅).

(** What [process_json] adds to its answer when it transforms an
    object and an array. *)
Definition transformed_object (d kept : list (string * value))
    : list (string * value) :=
  [ ("original_keys", VList (map (fun kv => VStr (fst kv)) d));
    ("transformed_data", VDict kept);
    ("transformation", VStr "remove_private_keys") ].

Definition transformed_array (l kept : list value) : list (string * value) :=
  [ ("original_length", VInt (Z.of_nat (List.length l)));
    ("transformed_data", VList kept);
    ("transformation", VStr "truncate_to_10") ].

(** The files that a trace asks to open, the bytes it writes, and the
    permits it takes and gives back. *)
Definition opened (t : list event) : list value :=
  flat_map (fun e => match e with OpenFile f => [f] | _ => [] end) t.

Definition written (t : list event) : Z :=
  fold_right
    (fun e n => match e with Write k => (Z.of_nat k + n)%Z | _ => n end)
    0%Z t.

Definition permits (t : list event) : list event :=
  List.filter
    (fun e => match e with Acquire | Release => true | _ => false end) t.

(** The size of a body that arrives in chunks of the given sizes. *)
Definition body_size (sizes : list nat) : Z :=
  fold_right (fun k n => (Z.of_nat k + n)%Z) 0%Z sizes.

(** A name without [..] and without [/]. *)
Definition plain (s : string) : bool :=
  negb (contains ".." s) && negb (contains "/" s).

(** What may happen while a download holds its permit: no permit is
    taken or given back, and no file is opened under a name that holds
    [..] or [/]. *)
Definition during_download (e : event) : Prop :=
  match e with
  | Acquire | Release => False
  | OpenFile (VStr s) => plain s = true
  | _ => True
  end.

(** The warning of [_validate_url] about a host. *)
Definition warning (parsed : web_tools.ParseResult) : list event :=
  if existsb (endswith (web_tools.netloc parsed)) web_tools.ALLOWED_DOMAINS
  then []
  else [Print ("Warning: Accessing domain not in whitelist: "
                 ++ web_tools.netloc parsed)].

(** Whether the arguments of a download pass its checks: a URL that is
    given, parses and is an HTTP one, and a filename that is given and
    holds neither [..] nor [/]. *)
Definition accepted (w : web_tools.web) (url filename : string) : bool :=
  truthy (VStr url)
  && match web_tools.urlparse w (VStr url) with
     | Ok parsed => bool_decide (web_tools.scheme parsed ∈ ["http"; "https"])
     | Raise _ => false
     end
  && truthy (VStr filename)
  && plain filename.

(** Whether the size that a response declares, if it declares one, is
    within the limit. *)
Definition declared_within (response : web_tools.ClientResponse) : bool :=
  match web_tools.content_length response with
  | Some cl =>
      if truthy (VStr cl)
      then match int_of_str cl with
           | Some n => negb (n >? web_tools.MAX_RESPONSE_SIZE)%Z
           | None => false
           end
      else true
  | None => true
  end.

(** What a download answers when it has stored [size] bytes. *)
Definition downloaded (url filename : string)
    (response : web_tools.ClientResponse) (size : Z) : value :=
  VDict
    [ ("url", VStr url);
      ("filename", VStr filename);
      ("size", VInt size);
      ("content_type", VStr (web_tools.content_type response));
      ("success", VBool true) ].


(** The names of the prompts that the server registers. *)
Definition prompt_names : list string :=
  map prompt_name analysis_prompts.get_analysis_prompts.

(** The arguments of an advanced operation on [x]. *)
Definition operand (x : value) : kwargs := <["x" := x]> ∅.

(** What [_validate_path] answers for a path once resolved, in the
    order of its checks. *)
Definition validated (p : string) : result string :=
  match List.find (startswith p) file_paths.RESTRICTED_PATHS with
  | Some restricted =>
      raise ValueError
        ("Invalid path: Access to " ++ restricted ++ " is restricted")
  | None =>
      if contains ".." p
      then raise ValueError "Invalid path: Path traversal not allowed"
      else Ok p
  end.
(** The filename that a download takes from its URL. *)
Definition derived_name (parsed : web_tools.ParseResult) : string :=
  let name := List.last (split "/" (web_tools.path parsed)) EmptyString in
  if String.eqb name EmptyString then "downloaded_file" else name.

(** The entry of the field analysis for a column of [missing_values]. *)
Definition field_of (column : string * value) : option (string * value) :=
  match snd column with
  | VDict info =>
      match dict_get info "percentage", dict_get info "count" with
      | Some p, Some c =>
          match number_of p with
          | Some n =>
              match sub (Int 100) n with
              | Ok completeness =>
                  Some (fst column,
                        VDict [ ("completeness", value_of completeness);
                                ("missing_count", c) ])
              | Raise _ => None
              end
          | None => None
          end
      | _, _ => None
      end
  | _ => None
  end.

(** A number that compares equal to zero. *)
Definition is_zero (n : number) : bool :=
  match n with
  | Int z => (z =? 0)%Z
  | Float f => PrimFloat.eqb f 0
  end.

(** The names that a report recommends to clean, and the names it
    reports as having many missing values. *)
Definition names_of (fields : value) : list string :=
  match fields with
  | VList l =>
      flat_map (fun v => match v with VStr s => [s] | _ => [] end) l
  | VDict d => map fst d
  | _ => []
  end.

Definition affected_fields (report : value) : list string :=
  match report with
  | VDict r =>
      match dict_get r "recommendations" with
      | Some (VList (VDict recommendation :: _)) =>
          match dict_get recommendation "affected_fields" with
          | Some fields => names_of fields
          | None => []
          end
      | _ => []
      end
  | _ => []
  end.

Definition high_missing (report : value) : list string :=
  match report with
  | VDict r =>
      match dict_get r "key_findings" with
      | Some (VList (VDict finding :: _)) =>
          if match dict_get finding "type" with
             | Some t => is_str "data_quality" t
             | None => false
             end
          then match dict_get finding "details" with
               | Some details => names_of details
               | None => []
               end
          else []
      | _ => []
      end
  | _ => []
  end.

End spec.

(** ** A host for the examples

    Its [float(s)] reads plain decimal integers and its [str(x)] prints
    integer-valued floats, as the interpreter does; the examples below
    feed it nothing else. *)

Module example.

Definition float_of_str (s : string) : option float :=
  match int_of_str s with
  | Some z => match float_of_int z with
              | Ok f => Some f
              | Raise _ => None
              end
  | None => None
  end.

Definition str_of_float (f : float) : string :=
  match Prim2SF f with
  | S754_zero s => if s then "-0.0" else "0.0"
  | S754_infinity s => if s then "-inf" else "inf"
  | S754_nan => "nan"
  | S754_finite s m e =>
      if (0 <=? e)%Z && (Zpos m * 2 ^ e <? 10 ^ 16)%Z
      then (if s then "-" else EmptyString)
             ++ str_of_int (Zpos m * 2 ^ e) ++ ".0"
      else if (e <? 0)%Z && (Zpos m mod 2 ^ (- e) =? 0)%Z
              && (Zpos m / 2 ^ (- e) <? 10 ^ 16)%Z
      then (if s then "-" else EmptyString)
             ++ str_of_int (Zpos m / 2 ^ (- e)) ++ ".0"
      else "<float>"
  end.

Definition rt : runtime := Runtime float_of_str str_of_float.

(** The file of the test [test_process_json_extract]. *)
Definition test_data : value :=
  VDict
    [ ("users",
       VList [ VDict [("name", VStr "John"); ("age", VInt 25)];
               VDict [("name", VStr "Jane"); ("age", VInt 30)] ]);
      ("metadata",
       VDict [("total", VInt 2); ("created", VStr "2024-01-01")]) ].

Definition no_such_file {A} (p : string) : result A :=
  raise OSError ("[Errno 2] No such file or directory: " ++ repr_str p).

(** A file system that holds [test_data.json] and nothing else. *)
Definition fs : filesystem :=
  FileSystem
    (fun p => String.eqb p "test_data.json")
    (fun p => p)
    (fun p => List.last (split "/" p) EmptyString)
    (fun p => 120%Z)
    (fun d pattern => [])
    (fun p => no_such_file p)
    (fun p => if String.eqb p "test_data.json" then Ok test_data
              else no_such_file p).

(** The analysis of a file of three rows, one of which lacks the age. *)
Definition one_age_missing : list (string * value) :=
  [ ("total_rows", VInt 3);
    ("missing_values",
     VDict [ ("age",
              VDict [ ("count", VInt 1);
                      ("percentage", VFloat (1 / 3 * 100)) ]) ]) ].

(** [s.partition(sep)], when [sep] occurs in [s]. *)
Fixpoint partition (sep s : string) : option (string * string) :=
  if startswith s sep then Some (EmptyString, drop (String.length sep) s)
  else match s with
       | EmptyString => None
       | String c s' =>
           match partition sep s' with
           | Some (a, b) => Some (String c a, b)
           | None => None
           end
       end.

(** [urlparse] on plain URLs, [scheme://host/path]. *)
Definition urlparse (url : value) : result web_tools.ParseResult :=
  match url with
  | VStr s =>
      match partition "://" s with
      | Some (scheme, rest) =>
          match partition "/" rest with
          | Some (host, p) =>
              Ok (web_tools.mkParseResult (lower scheme) host (String "/" p))
          | None => Ok (web_tools.mkParseResult (lower scheme) rest EmptyString)
          end
      | None => Ok (web_tools.mkParseResult EmptyString EmptyString s)
      end
  | _ =>
      raise AttributeError
        ("'" ++ type_name url ++ "' object has no attribute 'decode'")
  end.

(** A network on which no host answers, and a disk that takes any file. *)
Definition web : web_tools.web :=
  web_tools.Web urlparse
    (fun url => raise Exception "Cannot connect to host")
    (fun filename => Ok tt).

(** A clock that has stopped. *)
Definition clk : clock := Clock (fun n => "2024-01-01T00:00:00").

(** A host on the parts above; the handlers that are not modelled
    answer nothing. *)
Definition host : server.host :=
  server.Host rt fs clk web
    (fun _ _ => Ok VNone) (fun _ => Ok VNone) (fun _ => Ok VNone)
    (fun _ => Ok VNone) (fun _ => Ok VNone) (fun _ => Ok VNone)
    (fun _ => Ok VNone)
    (fun _ => VNone) (fun _ => Ok VNone) (fun _ => Ok VNone)
    (fun _ => Ok EmptyString) (fun _ => Ok EmptyString).

End example.

(** ** More hosts for the examples *)

Module sample.

(** A file system that holds one file, [notes.json], which is not
    JSON. *)
Definition fs : filesystem :=
  FileSystem
    (fun p => String.eqb p "notes.json")
    (fun p => p)
    (fun p => List.last (split "/" p) EmptyString)
    (fun p => 5%Z)
    (fun d pattern => [])
    (fun p => if String.eqb p "notes.json" then Ok "hello"
              else example.no_such_file p)
    (fun p => if String.eqb p "notes.json"
              then raise JSONDecodeError
                     "Expecting value: line 1 column 1 (char 0)"
              else example.no_such_file p).

(** The sizes of the chunks of a body of 129 times 8192 bytes, which
    is 8192 bytes more than the limit. *)
Definition sizes : list nat := repeat (Z.to_nat 8192) 129.

(** A small file, a file larger than the 100 bytes it declares, and a
    page that is not there. *)
Definition small : web_tools.ClientResponse :=
  web_tools.mkClientResponse 200 (Some "8292") "text/plain"
    [Ok (Z.to_nat 8192); Ok 100%nat].

Definition big : web_tools.ClientResponse :=
  web_tools.mkClientResponse 200 (Some "100") "application/octet-stream"
    (map Ok sizes).

Definition gone : web_tools.ClientResponse :=
  web_tools.mkClientResponse 404 None "text/html" [].

(** A network with one host that holds the two files, and a disk that
    takes any file. *)
Definition web : web_tools.web :=
  web_tools.Web example.urlparse
    (fun url =>
       if is_str "https://example.com/small.txt" url then Ok small
       else if is_str "https://example.com/big.bin" url then Ok big
       else Ok gone)
    (fun filename => Ok tt).

(** A file system with a data directory that holds one text file, and
    a host on it. *)
Definition library : filesystem :=
  FileSystem
    (fun p => String.eqb p "data" || String.eqb p "data/notes.txt")
    (fun p => p)
    (fun p => List.last (split "/" p) EmptyString)
    (fun p => 5%Z)
    (fun d pattern =>
       if String.eqb d "data" && String.eqb pattern "*.txt"
       then ["data/notes.txt"] else [])
    (fun p => if String.eqb p "data/notes.txt" then Ok "hello"
              else example.no_such_file p)
    (fun p => example.no_such_file p).

Definition host : server.host :=
  server.Host example.rt library example.clk example.web
    (fun _ _ => Ok VNone) (fun _ => Ok VNone) (fun _ => Ok VNone)
    (fun _ => Ok VNone) (fun _ => Ok VNone) (fun _ => Ok VNone)
    (fun _ => Ok VNone)
    (fun _ => VNone) (fun _ => Ok VNone) (fun _ => Ok VNone)
    (fun _ => Ok EmptyString) (fun _ => Ok EmptyString).

(** A [math] library that answers nothing, and a [pathlib] for absolute
    paths without links, which resolve to themselves. *)
Definition libm : advanced.libm :=
  advanced.Libm (fun _ _ => Ok VNone)
    (fun _ _ => raise ValueError "math domain error")
    (fun _ => raise ValueError "math domain error")
    (fun _ => raise ValueError "math domain error")
    (fun _ => raise ValueError "math domain error").

Definition pathlib : file_paths.pathlib :=
  file_paths.Pathlib
    (fun v => match v with
              | VStr s => Ok s
              | _ => raise TypeError
                       ("expected str, bytes or os.PathLike object, not "
                          ++ type_name v)
              end)
    (fun p => EmptyString).

(** An ordering that orders nothing: the examples compare numbers. *)
Definition ordering (a b : value) : result bool :=
  raise TypeError
    ("'>' not supported between instances of '" ++ type_name a ++ "' and '"
       ++ type_name b ++ "'").

(** The analysis of a file with one column, a quarter of which is
    missing and which varies more than its mean, and the summary report
    on it. *)
Definition analysis : list (string * value) :=
  [ ("total_rows", VInt 4);
    ("missing_values",
     VDict [ ("age", VDict [ ("count", VInt 1); ("percentage", VInt 25) ]) ]);
    ("numeric_statistics",
     VDict [ ("age", VDict [ ("mean", VInt 2); ("std", VInt 3) ]) ]) ].

Definition summary : value :=
  VDict
    [ ("report_type", VStr "summary");
      ("generated_at", VStr "2024-01-01T00:00:00");
      ("overview", VDict [ ("total_records", VInt 4) ]);
      ("key_findings",
       VList
         [ VDict
             [ ("type", VStr "data_quality");
               ("finding", VStr "High missing values detected");
               ("details",
                VDict [ ("age",
                         VDict [ ("count", VInt 1);
                                 ("percentage", VInt 25) ]) ]) ];
           VDict
             [ ("type", VStr "statistical");
               ("finding", VStr "High variability in age");
               ("details",
                VDict [ ("mean", VInt 2);
                        ("std", VInt 3);
                        ("coefficient_of_variation", VFloat 1.5) ]) ] ]);
      ("recommendations",
       VList
         [ VDict
             [ ("type", VStr "data_cleaning");
               ("action", VStr "Address missing values");
               ("affected_fields", VList [ VStr "age" ]) ] ]) ].

End sample.

(** * Properties *)

Import calc_tools data_tools web_tools file_resources analysis_prompts.
Import spec.

(** Running a sequence of statements. *)
Ltac run := cbn [mbind mret result_bind result_ret bind].

(** ** Calculator *)

Section calculator.
Variable rt : runtime.

Lemma get_with_operands_a (args : kwargs) :
  get (with_operands args) "a" (VInt 0) = get args "a" (VInt 0).
Proof.
  unfold with_operands, get. rewrite lookup_insert_eq. reflexivity.
Qed.

Lemma get_with_operands_b (args : kwargs) :
  get (with_operands args) "b" (VInt 0) = get args "b" (VInt 0).
Proof.
  unfold with_operands, get.
  rewrite lookup_insert_ne by discriminate.
  rewrite lookup_insert_eq. reflexivity.
Qed.

(** C9.  A basic operation on arguments that lack ["a"] or ["b"] behaves
    exactly as on the same arguments with each absent operand supplied
    as 0: no error reports a missing argument.  With no operand at all,
    add, subtract and multiply succeed with result 0, and divide fails
    as any division by 0 does. *)
Theorem calculate_basic_absent_operand_is_zero :
  (forall (operation : string) (args : kwargs),
      calculate_basic rt operation args
      = calculate_basic rt operation (with_operands args))
  /\ calculate_basic rt "add" ∅ = Ok (basic_result rt "add" 0 0 0)
  /\ calculate_basic rt "subtract" ∅ = Ok (basic_result rt "subtract" 0 0 0)
  /\ calculate_basic rt "multiply" ∅ = Ok (basic_result rt "multiply" 0 0 0)
  /\ calculate_basic rt "divide" ∅
     = Raise (Exn ValueError "Invalid input: Cannot divide by zero").
Proof.
  split; [| repeat split; reflexivity].
  intros operation args. unfold calculate_basic.
  rewrite get_with_operands_a, get_with_operands_b. reflexivity.
Qed.

Lemma get_units_args (v : value) (from_unit to_unit : string) :
  get (units_args v from_unit to_unit) "value" (VInt 0) = v
  /\ get (units_args v from_unit to_unit) "from_unit" (VStr EmptyString)
     = VStr from_unit
  /\ get (units_args v from_unit to_unit) "to_unit" (VStr EmptyString)
     = VStr to_unit.
Proof. repeat split. Qed.

(** C8, as amended.  Converting a value to metres from centimetres
    multiplies it, as the float [x] that [float] makes of it, by the
    factor 0.01 of the table, in floating point. *)
Theorem convert_units_cm_to_m_multiplies :
  forall (v : value) (x : float),
    float_ rt v = Ok x ->
    convert_units rt (units_args v "cm" "m")
    = Ok (VDict
            [ ("original_value", VFloat x);
              ("from_unit", VStr "cm");
              ("to_unit", VStr "m");
              ("converted_value", VFloat (x * 0.01));
              ("formatted",
               VStr (str_of_float rt x ++ " cm = "
                       ++ str_of_float rt (x * 0.01) ++ " m")) ]).
Proof.
  intros v x Hx. unfold convert_units.
  destruct (get_units_args v "cm" "m") as (-> & -> & ->).
  rewrite Hx. reflexivity.
Qed.

(** No key of the table reads [u_to_u]: the unit of a key of that shape
    is one of its prefixes, and no key is built from a prefix of its. *)

Lemma take_string_app (u t : string) :
  take_string (String.length u) (u ++ t) = u.
Proof. induction u as [| c u IH]; simpl; [destruct t |]; congruence. Qed.

Lemma length_app_le (u t : string) :
  (String.length u <= String.length (u ++ t))%nat.
Proof. induction u; simpl; lia. Qed.

Lemma same_unit_shape_complete (u : string) :
  same_unit_shape (u ++ "_to_" ++ u) = true.
Proof.
  unfold same_unit_shape. apply existsb_exists.
  exists (String.length u). split.
  - apply in_seq. pose proof (length_app_le u ("_to_" ++ u)). lia.
  - rewrite take_string_app. apply String.eqb_refl.
Qed.

Lemma no_same_unit_key (u : string) :
  CONVERSION_FACTORS !! (u ++ "_to_" ++ u) = None.
Proof.
  unfold CONVERSION_FACTORS. apply not_elem_of_list_to_map_1.
  intros Hin. pose proof (same_unit_shape_complete u) as Hshape.
  cbn [fmap list_fmap fst] in Hin.
  repeat (apply elem_of_cons in Hin as [Heq | Hin];
          [rewrite Heq in Hshape; vm_compute in Hshape; discriminate |]).
  inversion Hin.
Qed.

(** C3.  [convert_units] has no branch for equal units: whatever the
    unit [u], converting from [u] to [u] looks up [u_to_u] twice, finds
    nothing and raises, instead of returning the value. *)
Theorem convert_units_same_unit_raises :
  forall (x : float) (u : string),
    convert_units rt (units_args (VFloat x) u u)
    = Raise (Exn ValueError
               ("Invalid input: Conversion from " ++ lower u ++ " to "
                  ++ lower u ++ " not supported")).
Proof.
  intros x u. unfold convert_units.
  destruct (get_units_args (VFloat x) u u) as (-> & -> & ->).
  cbn [float_ lower_ mbind result_bind bind].
  rewrite no_same_unit_key. reflexivity.
Qed.

End calculator.

(** C8 at 100 centimetres: the product is 1 exactly. *)
Lemma convert_units_cm_to_m_100 :
  float_ example.rt (VInt 100) = Ok 100%float
  /\ converted_value (convert_units example.rt (units_args (VInt 100) "cm" "m"))
     = Some 1%float.
Proof.
  split; [reflexivity |].
  rewrite (convert_units_cm_to_m_multiplies example.rt (VInt 100) 100 eq_refl).
  reflexivity.
Defined.

(** C8, as stated, fails at 35: the product with the factor 0.01 is not
    the quotient by 100. *)
Lemma convert_units_cm_to_m_35 :
  converted_value (convert_units example.rt (units_args (VInt 35) "cm" "m"))
  = Some 0.35000000000000003%float
  /\ PrimFloat.eqb 0.35000000000000003 (35 / 100) = false.
Proof. split; reflexivity. Qed.

(** C3 at 5 metres. *)
Example convert_units_m_to_m :
  convert_units example.rt (units_args (VInt 5) "m" "m")
  = Raise (Exn ValueError "Invalid input: Conversion from m to m not supported").
Proof. reflexivity. Qed.

(** ** JSON extraction *)

Section extraction.

Lemma try_ok {A} (a : A) clauses : try_ (Ok a) clauses = Ok a.
Proof. destruct clauses; reflexivity. Qed.

Lemma int_ok (k : string) (i : Z) : int_of_str k = Some i -> int_ k = Ok i.
Proof. unfold int_. now intros ->. Qed.

Lemma index_in_range (l : list value) (i : nat) (v : value) :
  l !! i = Some v ->
  (0 <=? Z.of_nat i)%Z && (Z.of_nat i <? Z.of_nat (List.length l))%Z = true.
Proof.
  intros Hl. apply lookup_lt_Some in Hl.
  apply andb_true_intro. split; [apply Z.leb_le | apply Z.ltb_lt]; lia.
Qed.

Lemma extract_reaches (obj : value) (path : list string) (v : value) :
  reaches obj path v -> _extract_by_path obj path = Ok v.
Proof.
  induction 1 as [obj | d k rest v r Hk _ IH | l k rest i v r Hk Hl _ IH].
  - reflexivity.
  - cbn. now rewrite Hk.
  - cbn. rewrite (int_ok _ _ Hk). cbn.
    rewrite (index_in_range _ _ _ Hl), Nat2Z.id, Hl, IH. reflexivity.
Qed.

Lemma extract_fails (obj : value) (path : list string) (e : extract_error) :
  fails obj path e ->
  exists msg, _extract_by_path obj path = Raise (Exn (error_class e) msg).
Proof.
  induction 1 as [d k rest Hk | l k rest i Hk Hi | l k rest Hk
                 | obj k rest Hobj | d k rest v e Hk _ IH
                 | l k rest i v e Hk Hl _ IH].
  - cbn. rewrite Hk. eauto.
  - cbn. rewrite (int_ok _ _ Hk). cbn.
    destruct ((0 <=? i)%Z && (i <? Z.of_nat (List.length l))%Z) eqn:Hin.
    + exfalso. apply Hi. apply andb_prop in Hin as [H0 H1].
      apply Z.leb_le in H0. apply Z.ltb_lt in H1. lia.
    + cbn. eauto.
  - cbn. unfold int_. rewrite Hk. cbn. eauto.
  - destruct obj; try discriminate; cbn; eauto.
  - cbn. now rewrite Hk.
  - destruct IH as [msg IH]. cbn. rewrite (int_ok _ _ Hk). cbn.
    rewrite (index_in_range _ _ _ Hl), Nat2Z.id, Hl, IH.
    destruct e; cbn; eauto.
Qed.

(** The walk either ends at a value or fails in one of the four ways. *)
Lemma reaches_or_fails (path : list string) :
  forall obj : value,
    (exists v, reaches obj path v) \/ (exists e, fails obj path e).
Proof.
  induction path as [| k rest IH]; intros obj.
  - left. eexists. constructor.
  - destruct obj as [| b | z | f | s | l | d];
      try (right; exists NotAContainer; now constructor).
    + destruct (int_of_str k) as [i |] eqn:Hk;
        [| right; exists InvalidPathSegment; now constructor].
      destruct (decide (0 <= i < Z.of_nat (List.length l))%Z) as [Hi | Hi];
        [| right; exists IndexOutOfRange; econstructor; eauto].
      assert (Hi' : (Z.to_nat i < List.length l)%nat) by lia.
      apply lookup_lt_is_Some_2 in Hi' as [v Hv].
      assert (Hk' : int_of_str k = Some (Z.of_nat (Z.to_nat i)))
        by (rewrite Z2Nat.id by lia; exact Hk).
      destruct (IH v) as [[r Hr] | [e He]].
      * left. exists r. eapply reaches_index; eauto.
      * right. exists e. eapply fails_under_index; eauto.
    + destruct (dict_get d k) as [v |] eqn:Hk;
        [| right; exists PathNotFound; now constructor].
      destruct (IH v) as [[r Hr] | [e He]].
      * left. exists r. eapply reaches_key; eauto.
      * right. exists e. eapply fails_under_key; eauto.
Qed.


Lemma extract_ok_reaches (obj : value) (path : list string) (v : value) :
  _extract_by_path obj path = Ok v -> reaches obj path v.
Proof.
  intros Hv. destruct (reaches_or_fails path obj) as [[r Hr] | [e He]].
  - apply extract_reaches in Hr as Hr'. congruence.
  - apply extract_fails in He as [msg He]. congruence.
Qed.


Variable fs : filesystem.
Variable clk : clock.
Variable analyze : value -> value.



End extraction.


(** ** Quality score of a report *)

Section quality.

Lemma number_of_value_of (n : number) : number_of (value_of n) = Some n.
Proof. now destruct n. Qed.

(** The sum over the generator is the total of the percentages. *)
Lemma sum_percentages (columns : list (string * value)) :
  forall (ps : list number) (acc : number),
    Forall2 (fun column p => percentage_of column = Some p) columns ps ->
    sum_from acc (fun v => subscript v "percentage") (map snd columns)
    = total acc ps.
Proof.
  induction columns as [| [k info] columns IH]; intros ps acc Hps;
    inversion Hps as [| ? p ? ps' Hp Hps']; subst; [reflexivity |].
  unfold percentage_of in Hp. cbn [snd] in Hp.
  destruct info as [| | | | | | e]; try discriminate.
  destruct (dict_get e "percentage") as [pv |] eqn:He; [| discriminate].
  cbn [map snd sum_from total subscript mbind result_bind bind].
  rewrite He. unfold arith. run.
  rewrite number_of_value_of, Hp.
  destruct (add acc p) as [acc' | err]; run; [now apply IH | reflexivity].
Qed.

(** C5, as amended.  Without an entry ["missing_values"] the score is
    100.  With one, whose columns each carry a number as percentage, the
    score is 100 minus the average of the percentages, floored at 0,
    and then rounded to two decimal places. *)
Theorem quality_score_is_rounded (data : list (string * value)) :
  (dict_get data "missing_values" = None ->
   _calculate_quality_score (VDict data) = Ok (Int 100))
  /\ (forall (columns : list (string * value)) (ps : list number),
         dict_get data "missing_values" = Some (VDict columns) ->
         columns <> [] ->
         Forall2 (fun column p => percentage_of column = Some p) columns ps ->
         _calculate_quality_score (VDict data)
         = (q ← quality_score ps; Ok (round_ q 2))).
Proof.
  split.
  - intros Hnone. unfold _calculate_quality_score. cbn. now rewrite Hnone.
  - intros columns ps Hsome _ Hps. unfold _calculate_quality_score.
    cbn [contains_key subscript]. run.
    rewrite Hsome. cbn [negb]. run. cbn [values]. run.
    unfold sum. rewrite (sum_percentages columns ps (Int 0) Hps).
    unfold quality_score, average. run.
    destruct (total (Int 0) ps) as [t | e]; run; [| reflexivity].
    cbn [len]. run. rewrite (Forall2_length _ _ _ Hps).
    destruct (truediv t (Int (Z.of_nat (List.length ps)))) as [avg | e];
      run; [| reflexivity].
    destruct (sub (Int 100) avg) as [d | e]; reflexivity.
Qed.

(** The score is what a detailed report shows as its
    [data_quality_score]. *)
Lemma generate_report_detailed_score
    (clk : clock) (summary insights : value -> result value)
    (markdown dumps : value -> result string) (str : value -> string)
    (args : kwargs) (data fields : value) (q : number) (out : string) :
  args !! "data" = Some data ->
  truthy data = true ->
  args !! "report_type" = Some (VStr "detailed") ->
  args !! "format" = None ->
  _calculate_quality_score data = Ok q ->
  _analyze_fields data = Ok fields ->
  dumps (detailed_report clk data q fields) = Ok out ->
  generate_report clk summary insights markdown dumps str args
  = Ok (VDict
          [ ("report_type", VStr "detailed");
            ("format", VStr "json");
            ("report_data", detailed_report clk data q fields);
            ("formatted_output", VStr out);
            ("generation_timestamp", VStr (isoformat_now clk 1)) ]).
Proof.
  intros Hdata Htruthy Htype Hformat Hq Hfields Hout.
  unfold generate_report, get. rewrite Hdata, Htype, Hformat.
  cbn [default from_option id]. rewrite Htruthy. cbn [negb is_str].
  replace (String.eqb "detailed" "summary") with false by reflexivity.
  replace (String.eqb "detailed" "detailed") with true by reflexivity.
  unfold _generate_detailed_report. rewrite Hq, Hfields. run.
  replace (String.eqb "json" "markdown") with false by reflexivity.
  replace (String.eqb "json" "json") with true by reflexivity.
  fold (detailed_report clk data q fields). rewrite Hout. reflexivity.
Qed.

End quality.

(** C5 on a file of three rows, one of which lacks the age. *)
Lemma quality_score_one_age_missing :
  _calculate_quality_score (VDict example.one_age_missing)
  = Ok (Float 66.67).
Proof.
  rewrite (proj2 (quality_score_is_rounded example.one_age_missing)
             [ ("age",
                VDict [ ("count", VInt 1);
                        ("percentage", VFloat (1 / 3 * 100)) ]) ]
             [Float (1 / 3 * 100)] eq_refl).
  - reflexivity.
  - discriminate.
  - repeat constructor.
Defined.

(** C5, as stated, fails there: 100 minus the average is not the
    score, which has two decimals. *)
Lemma quality_score_not_unrounded :
  quality_score [Float (1 / 3 * 100)] = Ok (Float 66.66666666666667)
  /\ _calculate_quality_score (VDict example.one_age_missing)
     = Ok (Float 66.67)
  /\ PrimFloat.eqb 66.67 66.66666666666667 = false.
Proof. repeat split. Qed.

(** ** Downloads *)

Ltac run_io :=
  cbn [mbind mret io_mbind io_mret io_bind io_try lift emit finally_
       raise exn_class issubclass trace outcome].

Section downloads.
Variable w : web.

(** Validating a URL prints at most a warning, and gives the URL back. *)
Lemma _validate_url_quiet (url : value) :
  quiet (trace (_validate_url w url)) = true
  /\ forall v, outcome (_validate_url w url) = Ok v -> v = url.
Proof.
  unfold _validate_url.
  destruct (urlparse w url) as [parsed | e]; run_io.
  - destruct (bool_decide (scheme parsed ∈ ["http"; "https"])); cbn [negb]; run_io.
    + destruct (existsb (endswith (netloc parsed)) ALLOWED_DOMAINS);
        cbn [negb]; run_io; (split; [reflexivity | intros v; cbn; congruence]).
    + split; [reflexivity | intros v; cbn; discriminate].
  - split; [reflexivity | intros v; cbn; discriminate].
Qed.

Lemma quiet_app (t t' : list event) :
  quiet (t ++ t') = quiet t && quiet t'.
Proof. apply forallb_app. Qed.

Lemma quiet_cons (e : event) (t : list event) :
  quiet (e :: t) = negb (reaches_outside e) && quiet t.
Proof. reflexivity. Qed.

Ltac quiet_trace H :=
  rewrite ?app_nil_r, ?quiet_cons, ?quiet_app, ?H; reflexivity.

Lemma contains_nonempty (sub s : string) :
  sub <> EmptyString -> contains sub s = true -> truthy (VStr s) = true.
Proof.
  intros Hsub. destruct s; [| reflexivity].
  destruct sub; [congruence | discriminate].
Qed.

(** C10, as amended.  When the filename given holds [..] or [/], the
    call fails and nothing has reached the network or the disk.  The
    failure is that of the URL when the URL is absent or refused, since
    the URL is looked at first, and the invalid filename otherwise. *)
Theorem download_file_invalid_filename (args : kwargs) (f : string) :
  args !! "filename" = Some (VStr f) ->
  contains ".." f || contains "/" f = true ->
  let url := get args "url" (VStr EmptyString) in
  quiet (trace (download_file w args)) = true
  /\ outcome (download_file w args)
     = (if negb (truthy url)
        then raise Exception "Download failed: url is required"
        else match outcome (_validate_url w url) with
             | Ok _ => raise Exception "Download failed: Invalid filename"
             | Raise e =>
                 raise Exception ("Download failed: " ++ str_of_exn e)
             end).
Proof.
  intros Hname Hf url. unfold download_file.
  replace (get args "filename" (VStr EmptyString)) with (VStr f)
    by (unfold get; now rewrite Hname).
  fold url.
  assert (Htruthy : truthy (VStr f) = true).
  { apply orb_prop in Hf as [Hf | Hf];
      eapply contains_nonempty; try exact Hf; discriminate. }
  destruct (truthy url); cbn [negb]; run_io; [| split; reflexivity].
  destruct (_validate_url_quiet url) as [Hquiet _].
  destruct (_validate_url w url) as [t [validated | e]]; cbn [trace] in Hquiet;
    run_io.
  - rewrite Htruthy. cbn [negb]. run_io. cbn [contains_key]. run_io.
    destruct (contains ".." f); run_io.
    + split; [quiet_trace Hquiet | reflexivity].
    + cbn [orb] in Hf. rewrite Hf. run_io.
      split; [quiet_trace Hquiet | reflexivity].
  - split; [quiet_trace Hquiet | reflexivity].
Qed.

End downloads.

(** C10 on a URL that passes: the filename is what fails, and only a
    permit was taken and given back. *)
Lemma download_file_dotdot :
  trace (download_file example.web
           (download_args "https://example.com/a.txt" "../x"))
  = [Acquire; Release]
  /\ outcome (download_file example.web
                (download_args "https://example.com/a.txt" "../x"))
     = Raise (Exn Exception "Download failed: Invalid filename").
Proof.
  split; [reflexivity |].
  exact (proj2 (download_file_invalid_filename example.web
                  (download_args "https://example.com/a.txt" "../x") "../x"
                  eq_refl eq_refl)).
Defined.

(** C10, as stated, fails when the URL is missing or is not an HTTP
    one: the error is then about the URL, not about the filename. *)
Lemma download_file_url_checked_first :
  outcome (download_file example.web (<["filename" := VStr "../x"]> ∅))
  = Raise (Exn Exception "Download failed: url is required")
  /\ outcome (download_file example.web
                (download_args "ftp://example.com/a.txt" "../x"))
     = Raise (Exn Exception
                "Download failed: Invalid URL: Only HTTP and HTTPS URLs are allowed").
Proof. split; reflexivity. Qed.

(** ** Resources *)

Import server.

Section reading.

(** A registry holds the keys it held and the keys registered. *)
Lemma register_is_Some {A} (key : A -> string) (xs : list A) :
  forall (registry : gmap string A) (k : string),
    is_Some (register key xs registry !! k)
    <-> is_Some (registry !! k) \/ k ∈ map key xs.
Proof.
  unfold register.
  induction xs as [| x xs IH]; intros registry k; cbn [foldl map].
  - rewrite elem_of_nil. tauto.
  - rewrite IH, lookup_insert_is_Some', elem_of_cons. intuition congruence.
Qed.

Lemma startswith_app (p s : string) : startswith (p ++ s) p = true.
Proof.
  induction p as [| c p IH]; [now destruct s |].
  change (String c p ++ s) with (String c (p ++ s)).
  cbn [startswith]. now rewrite Ascii.eqb_refl.
Qed.


Variable h : host.







End reading.



(** ** Prompts *)

Section strings.

Lemma app_cons (c : ascii) (a b : string) :
  String c a ++ b = String c (a ++ b).
Proof. reflexivity. Qed.

Lemma app_empty (b : string) : EmptyString ++ b = b.
Proof. reflexivity. Qed.

Lemma app_assoc (a b c : string) : (a ++ b) ++ c = a ++ (b ++ c).
Proof.
  induction a as [| x a IH]; [reflexivity |].
  rewrite !app_cons. now rewrite IH.
Qed.


Lemma drop_app (p s : string) : drop (String.length p) (p ++ s) = s.
Proof.
  induction p as [| c p IH]; [now destruct s |].
  rewrite app_cons. exact IH.
Qed.


Lemma contains_cons (t : string) (c : ascii) (s : string) :
  contains t (String c s) = startswith (String c s) t || contains t s.
Proof. reflexivity. Qed.


Lemma contains_prefix (t s : string) :
  contains t (t ++ s) = true.
Proof.
  destruct t as [| c t]; [now destruct s |].
  rewrite app_cons, contains_cons, <- app_cons, startswith_app. reflexivity.
Qed.

(** *** [str.replace] *)

Variables old' new : string.
Variable o : ascii.
Let old := String o old'.

Lemma replace_from_skip (k : nat) :
  forall s : string,
    replace_from old new k s = replace_from old new 0 (drop k s).
Proof.
  induction k as [| k IH]; intros [| c s]; try reflexivity.
  cbn [replace_from drop]. apply IH.
Qed.

Lemma replace_empty : replace old new EmptyString = EmptyString.
Proof. reflexivity. Qed.

(** Where [old] starts, it is replaced, and the search goes on behind
    it. *)
Lemma replace_hit (s : string) :
  startswith s old = true ->
  replace old new s = new ++ replace old new (drop (String.length old) s).
Proof.
  destruct s as [| c s]; [discriminate |]. intros Hs.
  unfold replace. cbn [replace_from]. rewrite Hs, replace_from_skip.
  subst old. cbn [String.length drop].
  now replace (S (String.length old') - 1)%nat with (String.length old') by lia.
Qed.

(** Where it does not, the character is kept. *)
Lemma replace_miss (c : ascii) (s : string) :
  startswith (String c s) old = false ->
  replace old new (String c s) = String c (replace old new s).
Proof.
  intros Hs. unfold replace. cbn [replace_from]. now rewrite Hs.
Qed.


(** The first occurrence of [old], after a prefix in which [old] does
    not start, is replaced by [new]. *)
Lemma replace_first (pre post : string) :
  (forall i : nat,
      (i < String.length pre)%nat ->
      startswith (drop i (pre ++ old ++ post)) old = false) ->
  replace old new (pre ++ old ++ post) = pre ++ new ++ replace old new post.
Proof.
  induction pre as [| c pre IH]; intros Hpre.
  - rewrite !app_empty, replace_hit by apply startswith_app.
    now rewrite drop_app.
  - rewrite !app_cons. rewrite replace_miss.
    + f_equal. apply IH. intros i Hi. apply (Hpre (S i)). cbn. lia.
    + apply (Hpre 0%nat). cbn. lia.
Qed.

End strings.

(** *** Placeholders *)

Section placeholders.

Lemma token_eq (key : string) : "{" ++ key ++ "}" = token key.
Proof. reflexivity. Qed.









End placeholders.

(** *** [handle_get_prompt] *)

Section prompts.



Variable h : host.




End prompts.


(** ** Tool calls *)

Section calls.
Variable h : host.

(** The handler of [try] in [handle_call_tool] takes every exception. *)
Lemma call_envelope (c : result value) :
  try_
    (result ← c; Ok (text_result (str_value (host_runtime h) result)))
    [ (Exception, fun e => Ok (text_result ("Error: " ++ str_of_exn e))) ]
  = Ok (text_result (envelope_text h c)).
Proof. destruct c as [r | [cls msg]]; reflexivity. Qed.

Ltac known_tool name s :=
  destruct (String.eqb_spec name s) as [-> | ?]; [apply call_envelope |].

Ltac not_among :=
  rewrite ?elem_of_cons, elem_of_nil; intuition congruence.

(** The chain of comparisons routes a name as the registry does. *)
Lemma handle_call_tool_dispatch (name : string) (args : option kwargs) :
  handle_call_tool h name args
  = Ok (text_result (envelope_text h (dispatch h name (default ∅ args)))).
Proof.
  unfold handle_call_tool.
  known_tool name "add". known_tool name "subtract".
  known_tool name "multiply". known_tool name "divide".
  known_tool name "power". known_tool name "sqrt". known_tool name "log".
  known_tool name "sin". known_tool name "cos". known_tool name "tan".
  known_tool name "convert_units". known_tool name "read_file".
  known_tool name "write_file". known_tool name "list_directory".
  known_tool name "fetch_webpage". known_tool name "search_web".
  known_tool name "download_file". known_tool name "analyze_csv".
  known_tool name "process_json". known_tool name "generate_report".
  rewrite !bool_decide_eq_false_2 by not_among.
  repeat match goal with
         | |- context [String.eqb name ?s] =>
             rewrite (proj2 (String.eqb_neq name s)) by assumption
         end.
  rewrite call_envelope. unfold dispatch, handler_of, handlers.
  cbn [assoc].
  repeat match goal with
         | |- context [String.eqb ?s name] =>
             rewrite (proj2 (String.eqb_neq s name)) by congruence
         end.
  reflexivity.
Qed.

(** The names of the registry are the names of the chain. *)
Lemma unregistered_no_handler (name : string) :
  tools !! name = None -> handler_of h name = None.
Proof.
  intros Hname. apply eq_None_not_Some in Hname.
  unfold tools in Hname. rewrite !register_is_Some, lookup_empty in Hname.
  unfold handler_of, handlers. cbn [assoc].
  repeat match goal with
         | |- context [String.eqb ?s name] =>
             destruct (String.eqb_spec s name) as [<- | _];
             [exfalso; apply Hname; cbn;
              rewrite ?elem_of_cons; tauto |]
         end.
  reflexivity.
Qed.


(** C2.  A name that the registry does not hold has no handler, and
    the call answers with the error that names it. *)
Theorem handle_call_tool_unknown (name : string) (args : option kwargs) :
  tools !! name = None ->
  handler_of h name = None
  /\ handle_call_tool h name args
     = Ok (text_result ("Error: Unknown tool: " ++ name)).
Proof.
  intros Hname. apply unregistered_no_handler in Hname.
  split; [exact Hname |].
  rewrite handle_call_tool_dispatch. unfold dispatch. now rewrite Hname.
Qed.

End calls.


(** C2 on a name that is not registered. *)
Lemma handle_call_tool_remove_file :
  tools !! "remove_file" = None
  /\ handle_call_tool example.host "remove_file" (Some (operands (VInt 1) (VInt 0)))
     = Ok (text_result "Error: Unknown tool: remove_file").
Proof.
  split; [reflexivity |].
  exact (proj2 (handle_call_tool_unknown example.host "remove_file"
                  (Some (operands (VInt 1) (VInt 0))) eq_refl)).
Defined.

(** * Further properties *)

(** ** The conversion table *)

Section conversions.
Variable rt : runtime.



Lemma take_string_prefix (a r : string) :
  take_string (String.length a) (a ++ r) = a.
Proof.
  induction a as [| c a IH]; [now destruct r |].
  rewrite app_cons. cbn [String.length take_string]. now rewrite IH.
Qed.

Lemma drop_plus (n m : nat) :
  forall s : string, drop (n + m) s = drop m (drop n s).
Proof.
  induction n as [| n IH]; intros s; [reflexivity |].
  destruct s as [| c s]; [now destruct m |]. apply IH.
Qed.

Lemma length_app (a b : string) :
  String.length (a ++ b) = (String.length a + String.length b)%nat.
Proof.
  induction a as [| c a IH]; [reflexivity |].
  rewrite app_cons. cbn [String.length]. now rewrite IH.
Qed.

(** A key [a_to_b] can be read as [a] and [b]. *)
Lemma splits_complete (a b : string) :
  (a, b) ∈ splits (a ++ "_to_" ++ b).
Proof.
  unfold splits. apply list_elem_of_In, in_flat_map.
  exists (String.length a). split.
  - apply in_seq. rewrite length_app. lia.
  - rewrite drop_app, take_string_prefix, drop_plus, drop_app.
    rewrite startswith_app.
    change 4%nat with (String.length "_to_"). rewrite drop_app. now left.
Qed.

Lemma flat_map_intro {A B} (f : A -> list B) (l : list A) (x : A) (y : B) :
  x ∈ l -> y ∈ f x -> y ∈ flat_map f l.
Proof.
  intros Hx Hy. apply list_elem_of_In, in_flat_map.
  exists x. split; now apply list_elem_of_In.
Qed.

Lemma entry_pair (a b : string) (e : factor) :
  CONVERSION_FACTORS !! (a ++ "_to_" ++ b) = Some e ->
  (a, b) ∈ conversion_pairs.
Proof.
  intros He. apply elem_of_map_to_list in He.
  exact (flat_map_intro (fun entry => splits (fst entry)) _ _ _ He
           (splits_complete a b)).
Qed.

End conversions.

Section conversions_supported.
Variable rt : runtime.

Lemma conversion_pairs_eq :
  conversion_pairs
  = [ ("g", "kg"); ("kg", "lb"); ("kelvin", "celsius"); ("cm", "m");
      ("celsius", "kelvin"); ("celsius", "fahrenheit"); ("m", "km");
      ("mm", "cm"); ("yd", "mi"); ("in", "ft"); ("fahrenheit", "celsius");
      ("ft", "yd"); ("lb", "oz") ].
Proof. vm_compute. reflexivity. Qed.

Ltac each_pair H :=
  rewrite conversion_pairs_eq in H;
  repeat (apply elem_of_cons in H as [H | H];
          [injection H as -> -> |]);
  [.. | now apply elem_of_nil in H].


End conversions_supported.

Section conversions_more.
Variable rt : runtime.

Ltac each_pair H :=
  rewrite conversion_pairs_eq in H;
  repeat (apply elem_of_cons in H as [H | H];
          [injection H as -> -> |]);
  [.. | now apply elem_of_nil in H].

(** X2.  For an entry [a_to_b] of the table that is a plain factor,
    converting from [a] to [b] multiplies by the factor and converting
    from [b] to [a] divides by it. *)
Theorem convert_units_scalar_both_ways (x f : float) (a b : string) :
  CONVERSION_FACTORS !! (a ++ "_to_" ++ b) = Some (Scalar f) ->
  converted_value (calc_tools.convert_units rt (units_args (VFloat x) a b))
  = Some (x * f)%float
  /\ converted_value (calc_tools.convert_units rt (units_args (VFloat x) b a))
     = Some (x / f)%float.
Proof.
  intros Hf. pose proof (entry_pair a b _ Hf) as Hpair.
  each_pair Hpair; vm_compute in Hf; try discriminate;
    injection Hf as <-; split; reflexivity.
Qed.


(** X4.  An entry of the table that is a function is applied as it is,
    and its pair of units is in the table in the other direction too:
    the reverse lookup never meets a function, so that the two inverse
    formulas written out for it are never used. *)
Theorem convert_units_special_direct (x : float) (a b : string)
    (fn : float -> float) :
  CONVERSION_FACTORS !! (a ++ "_to_" ++ b) = Some (Special fn) ->
  converted_value (calc_tools.convert_units rt (units_args (VFloat x) a b))
  = Some (fn x)
  /\ is_Some (CONVERSION_FACTORS !! (b ++ "_to_" ++ a)).
Proof.
  intros Hf. pose proof (entry_pair a b _ Hf) as Hpair.
  each_pair Hpair; vm_compute in Hf; try discriminate;
    injection Hf as <-; (split; [reflexivity | vm_compute; eauto]).
Qed.

End conversions_more.

(** X2 on kilograms and pounds. *)
Lemma convert_units_kg_lb :
  converted_value
    (calc_tools.convert_units example.rt (units_args (VFloat 10) "kg" "lb"))
  = Some 22.0462%float
  /\ converted_value
       (calc_tools.convert_units example.rt (units_args (VFloat 22.0462) "lb" "kg"))
     = Some 10%float.
Proof.
  exact (conj
    (proj1 (convert_units_scalar_both_ways example.rt 10 2.20462
              "kg" "lb" eq_refl))
    (proj2 (convert_units_scalar_both_ways example.rt 22.0462 2.20462
              "kg" "lb" eq_refl))).
Defined.

(** X4 on celsius and kelvin. *)
Lemma convert_units_celsius_kelvin :
  converted_value
    (calc_tools.convert_units example.rt
       (units_args (VFloat 0) "celsius" "kelvin"))
  = Some 273.15%float.
Proof.
  exact (proj1 (convert_units_special_direct example.rt 0 "celsius" "kelvin"
                  (fun c => c + 273.15)%float eq_refl)).
Defined.

(** ** Basic operations *)

Section basic_operations.
Variable rt : runtime.

Lemma get_operands (a b : value) :
  get (operands a b) "a" (VInt 0) = a /\ get (operands a b) "b" (VInt 0) = b.
Proof. split; reflexivity. Qed.

(** X5.  The result of an addition, a subtraction or a multiplication
    is a number that the next operation takes as an operand: two
    operations in a row compute [g (f a b) c]. *)
Theorem calculate_basic_chain (op1 op2 : string) (f g : float -> float -> float)
    (va vb vc : value) (a b c : float) :
  arithmetic op1 = Some f ->
  arithmetic op2 = Some g ->
  float_ rt va = Ok a -> float_ rt vb = Ok b -> float_ rt vc = Ok c ->
  exists step1 : value,
    result_of (calc_tools.calculate_basic rt op1 (operands va vb)) = Some step1
    /\ result_of (calc_tools.calculate_basic rt op2 (operands step1 vc))
       = Some (VFloat (g (f a b) c)).
Proof.
  intros Hf Hg Ha Hb Hc. exists (VFloat (f a b)).
  unfold calc_tools.calculate_basic.
  destruct (get_operands va vb) as [-> ->].
  destruct (get_operands (VFloat (f a b)) vc) as [-> ->].
  rewrite Ha, Hb, Hc. cbn [float_]. run.
  unfold arithmetic in Hf, Hg.
  split.
  - destruct (String.eqb op1 "add"); [injection Hf as <-; reflexivity |].
    destruct (String.eqb op1 "subtract"); [injection Hf as <-; reflexivity |].
    destruct (String.eqb op1 "multiply"); [injection Hf as <-; reflexivity |].
    discriminate.
  - destruct (String.eqb op2 "add"); [injection Hg as <-; reflexivity |].
    destruct (String.eqb op2 "subtract"); [injection Hg as <-; reflexivity |].
    destruct (String.eqb op2 "multiply"); [injection Hg as <-; reflexivity |].
    discriminate.
Qed.



(** X7.  A basic operation succeeds exactly when both operands are read
    as floats and the operation is an addition, a subtraction, a
    multiplication, or a division by a float that does not compare equal
    to zero: a division by [-0.0] is refused like one by [0.0], a
    division by a NaN is carried out. *)
Theorem calculate_basic_succeeds (operation : string) (va vb : value) :
  is_ok (calc_tools.calculate_basic rt operation (operands va vb))
  = match float_ rt va, float_ rt vb with
    | Ok _, Ok b => defined operation b
    | _, _ => false
    end.
Proof.
  unfold calc_tools.calculate_basic.
  destruct (get_operands va vb) as [-> ->].
  destruct (float_ rt va) as [a | ea].
  2: { cbn [mbind result_bind bind try_].
       destruct (issubclass (exn_class ea) ValueError); reflexivity. }
  destruct (float_ rt vb) as [b | eb].
  2: { cbn [mbind result_bind bind try_].
       destruct (issubclass (exn_class eb) ValueError); reflexivity. }
  run. unfold defined, arithmetic.
  destruct (String.eqb operation "add"); [reflexivity |].
  destruct (String.eqb operation "subtract"); [reflexivity |].
  destruct (String.eqb operation "multiply"); [reflexivity |].
  destruct (String.eqb operation "divide"); [| reflexivity].
  unfold float_div. destruct (PrimFloat.eqb b 0); reflexivity.
Qed.

End basic_operations.

(** X5 on the chain of the repository's own test: (5 + 3) * 2. *)
Lemma calculate_basic_chain_5_3_2 :
  result_of (calc_tools.calculate_basic example.rt "add"
               (operands (VInt 5) (VInt 3)))
  = Some (VFloat 8)
  /\ result_of (calc_tools.calculate_basic example.rt "multiply"
                  (operands (VFloat 8) (VInt 2)))
     = Some (VFloat 16).
Proof.
  destruct (calculate_basic_chain example.rt "add" "multiply"
              PrimFloat.add PrimFloat.mul (VInt 5) (VInt 3) (VInt 2) 5 3 2
              eq_refl eq_refl eq_refl eq_refl eq_refl)
    as (step1 & H1 & H2).
  assert (Hstep : result_of (calc_tools.calculate_basic example.rt "add"
                               (operands (VInt 5) (VInt 3)))
                  = Some (VFloat 8)) by (vm_compute; reflexivity).
  rewrite Hstep in H1. injection H1 as <-.
  split; [exact Hstep | exact H2].
Defined.


(** ** Walking and processing JSON *)

Section json_walk.

(** A clause that turns a [ValueError] into another one lets a result
    through and no failure. *)
Lemma try_value_error {A} (c : result A) (msg : string) (r : A) :
  try_ c [(ValueError, fun _ => raise ValueError msg)] = Ok r <-> c = Ok r.
Proof.
  destruct c as [a | e]; [reflexivity |]. cbn [try_].
  destruct (issubclass (exn_class e) ValueError); [| reflexivity].
  split; discriminate.
Qed.

(** X8.  Walks compose: when the path [p] leads from [obj] to [v], the
    path [p ++ q] leads from [obj] to whatever [q] leads to from [v],
    and to nothing when [q] leads nowhere from [v]. *)
Theorem _extract_by_path_app (obj v : value) (p q : list string) :
  data_tools._extract_by_path obj p = Ok v ->
  forall r : value,
    data_tools._extract_by_path obj (p ++ q) = Ok r
    <-> data_tools._extract_by_path v q = Ok r.
Proof.
  intros Hp r. apply extract_ok_reaches in Hp.
  induction Hp as [obj | d k rest v w Hk _ IH | l k rest i v w Hk Hl _ IH].
  - reflexivity.
  - cbn [app _extract_by_path]. now rewrite Hk.
  - cbn [app _extract_by_path]. rewrite (int_ok _ _ Hk). run.
    rewrite (index_in_range _ _ _ Hl), Nat2Z.id, Hl.
    rewrite try_value_error. exact IH.
Qed.

(** X9.  A [ValueError] of a walk that starts at an array names the
    segment applied to that array, whether that segment or one further
    down the path is the one that is no index. *)
Theorem _extract_by_path_invalid_index (l : list value) (k : string)
    (rest : list string) (e : exn) :
  data_tools._extract_by_path (VList l) (k :: rest) = Raise e ->
  exn_class e = ValueError ->
  exn_arg e = "Invalid array index: " ++ k.
Proof.
  cbn [_extract_by_path].
  match goal with |- try_ ?c _ = _ -> _ => destruct c as [a | e0] end;
    [discriminate |].
  cbn [try_]. destruct (issubclass (exn_class e0) ValueError) eqn:Hsub.
  - intros He _. injection He as <-. reflexivity.
  - cbn [try_]. intros He Hcls. injection He as <-.
    rewrite Hcls in Hsub. discriminate.
Qed.

Variable fs : filesystem.
Variable clk : clock.
Variable analyze : value -> value.

(** The start of [process_json], up to the document loaded. *)
Lemma process_json_loaded (args : kwargs) (file : string) (data : value) :
  args !! "file_path" = Some (VStr file) ->
  truthy (VStr file) = true ->
  exists_ fs file = true ->
  json_load fs file = Ok data ->
  data_tools.process_json fs clk analyze args
  = try_
      (let operation := get args "operation" (VStr "analyze") in
       let json_path := get args "json_path" (VStr EmptyString) in
       let result := base_result fs clk file operation in
       if is_str "analyze" operation then
         Ok (update result
               [ ("structure", analyze data);
                 ("root_type", VStr (type_name data));
                 ("is_valid", VBool true) ])
       else if is_str "extract" operation && truthy json_path then
         path_parts ← split_ "." json_path;
         extracted ← _extract_by_path data path_parts;
         Ok (update result
               [ ("json_path", json_path);
                 ("extracted_data", extracted);
                 ("extracted_type", VStr (type_name extracted)) ])
       else if is_str "transform" operation then
         match data with
         | VList l => Ok (update result (transformed_array l (take 10 l)))
         | VDict d =>
             Ok (update result
                   (transformed_object d
                      (List.filter
                         (fun kv => negb (startswith (fst kv) "_")) d)))
         | _ => Ok (VDict result)
         end
       else Ok (VDict result))
      [ (Exception,
         fun e => raise Exception ("JSON processing failed: " ++ str_of_exn e)) ].
Proof.
  intros Hfile Hfile' Hexists Hload.
  unfold data_tools.process_json.
  replace (get args "file_path" (VStr EmptyString)) with (VStr file)
    by (unfold get; now rewrite Hfile).
  rewrite Hfile'. cbn [negb Path mbind result_bind bind].
  rewrite Hexists, Hload. cbn [negb]. rewrite try_ok. run. reflexivity.
Qed.

(** X10.  An operation that is none of [analyze], [extract] and
    [transform], and an [extract] without a path, are no errors: the
    answer holds the four fields common to all answers and nothing
    else. *)
Theorem process_json_other_operation (args : kwargs) (file operation : string)
    (data : value) :
  args !! "file_path" = Some (VStr file) ->
  truthy (VStr file) = true ->
  exists_ fs file = true ->
  json_load fs file = Ok data ->
  args !! "operation" = Some (VStr operation) ->
  operation <> "analyze" ->
  operation <> "transform" ->
  (operation = "extract" ->
   truthy (get args "json_path" (VStr EmptyString)) = false) ->
  data_tools.process_json fs clk analyze args
  = Ok (VDict (base_result fs clk file (VStr operation))).
Proof.
  intros Hfile Hfile' Hexists Hload Hop Hanalyze Htransform Hextract.
  rewrite (process_json_loaded args file data) by assumption.
  replace (get args "operation" (VStr "analyze")) with (VStr operation)
    by (unfold get; now rewrite Hop).
  cbv zeta. cbn [is_str].
  rewrite (proj2 (String.eqb_neq _ _) Hanalyze).
  rewrite (proj2 (String.eqb_neq _ _) Htransform).
  destruct (String.eqb_spec operation "extract") as [He | _].
  - rewrite (Hextract He). reflexivity.
  - reflexivity.
Qed.

Lemma dict_get_public (d : list (string * value)) (k : string) :
  dict_get (List.filter (fun kv => negb (startswith (fst kv) "_")) d) k
  = if startswith k "_" then None else dict_get d k.
Proof.
  induction d as [| [k' v] d IH]; [now destruct (startswith k "_") |].
  cbn [List.filter fst dict_get].
  destruct (String.eqb_spec k' k) as [Heq | Hne].
  - subst k'. destruct (startswith k "_") eqn:Hk; cbn [negb].
    + exact IH.
    + cbn [dict_get]. now rewrite String.eqb_refl.
  - destruct (startswith k' "_"); cbn [negb]; [exact IH |].
    cbn [dict_get]. now rewrite (proj2 (String.eqb_neq _ _) Hne).
Qed.

(** X11.  A transformation of an object keeps, under each key that does
    not start with an underscore, the value the object has there, and
    nothing under the other keys; a transformation of an array keeps
    its first ten elements; a transformation of anything else answers
    with the common fields only, without error. *)
Theorem process_json_transform (args : kwargs) (file : string) (data : value) :
  args !! "file_path" = Some (VStr file) ->
  truthy (VStr file) = true ->
  exists_ fs file = true ->
  json_load fs file = Ok data ->
  args !! "operation" = Some (VStr "transform") ->
  let base := base_result fs clk file (VStr "transform") in
  match data with
  | VDict d =>
      exists kept : list (string * value),
        data_tools.process_json fs clk analyze args
        = Ok (VDict (base ++ transformed_object d kept))
        /\ forall k : string,
             dict_get kept k
             = if startswith k "_" then None else dict_get d k
  | VList l =>
      exists kept : list value,
        data_tools.process_json fs clk analyze args
        = Ok (VDict (base ++ transformed_array l kept))
        /\ forall i : nat,
             kept !! i = if (i <? 10)%nat then l !! i else None
  | _ => data_tools.process_json fs clk analyze args = Ok (VDict base)
  end.
Proof.
  intros Hfile Hfile' Hexists Hload Hop base.
  rewrite (process_json_loaded args file data) by assumption.
  replace (get args "operation" (VStr "analyze")) with (VStr "transform")
    by (unfold get; now rewrite Hop).
  cbv zeta. cbn [is_str].
  replace (String.eqb "transform" "analyze") with false by reflexivity.
  replace (String.eqb "transform" "extract") with false by reflexivity.
  replace (String.eqb "transform" "transform") with true by reflexivity.
  cbn [andb]. destruct data as [| b | z | f | s | l | d]; try reflexivity.
  - exists (take 10 l). split; [reflexivity |].
    intros i. destruct (Nat.ltb_spec i 10) as [Hi | Hi].
    + now apply lookup_take_lt.
    + now apply lookup_take_ge.
  - eexists. split; [reflexivity |]. apply dict_get_public.
Qed.

Lemma issubclass_Exception (c : exc_class) : issubclass c Exception = true.
Proof. reflexivity. Qed.

(** X12.  [process_json] looks at the file before it looks at the
    operation: without a file path, with a path to nothing, and with a
    file that cannot be loaded, it fails in that order of precedence,
    whatever the operation; only a file that is not JSON is reported as
    invalid JSON, another failure to read it keeps its own message. *)
Theorem process_json_file_failures (args : kwargs) :
  (truthy (get args "file_path" (VStr EmptyString)) = false ->
   data_tools.process_json fs clk analyze args
   = raise Exception "JSON processing failed: file_path is required")
  /\ (forall file : string,
         args !! "file_path" = Some (VStr file) ->
         truthy (VStr file) = true ->
         exists_ fs file = false ->
         data_tools.process_json fs clk analyze args
         = raise Exception
             ("JSON processing failed: File not found: " ++ file))
  /\ (forall (file : string) (e : exn),
         args !! "file_path" = Some (VStr file) ->
         truthy (VStr file) = true ->
         exists_ fs file = true ->
         json_load fs file = Raise e ->
         data_tools.process_json fs clk analyze args
         = raise Exception
             ("JSON processing failed: "
                ++ (if issubclass (exn_class e) JSONDecodeError
                    then "Invalid JSON: " ++ str_of_exn e
                    else str_of_exn e))).
Proof.
  repeat split.
  - intros Hfile. unfold data_tools.process_json. now rewrite Hfile.
  - intros file Hfile Hfile' Hexists. unfold data_tools.process_json.
    replace (get args "file_path" (VStr EmptyString)) with (VStr file)
      by (unfold get; now rewrite Hfile).
    rewrite Hfile'. cbn [negb Path mbind result_bind bind].
    now rewrite Hexists.
  - intros file e Hfile Hfile' Hexists Hload. unfold data_tools.process_json.
    replace (get args "file_path" (VStr EmptyString)) with (VStr file)
      by (unfold get; now rewrite Hfile).
    rewrite Hfile'. cbn [negb Path mbind result_bind bind].
    rewrite Hexists, Hload. cbn [negb try_].
    destruct (issubclass (exn_class e) JSONDecodeError); reflexivity.
Qed.

End json_walk.

(** X8 on the file of the repository's own test: the first user, then
    the name. *)
Lemma _extract_by_path_users_0_name :
  data_tools._extract_by_path example.test_data ["users"; "0"; "name"]
  = Ok (VStr "John").
Proof.
  apply (_extract_by_path_app example.test_data
           (VDict [("name", VStr "John"); ("age", VInt 25)])
           ["users"; "0"] ["name"] eq_refl (VStr "John")).
  reflexivity.
Defined.

(** X9 on an array in an array: the index [0] is in range, the segment
    [x] is the one that is no index, and the error names [0]. *)
Lemma _extract_by_path_names_outer_segment :
  data_tools._extract_by_path (VList [VList [VInt 1]]) ["0"; "x"]
  = Raise (Exn ValueError "Invalid array index: 0")
  /\ exn_arg (Exn ValueError "Invalid array index: 0")
     = "Invalid array index: " ++ "0".
Proof.
  split; [reflexivity |].
  exact (_extract_by_path_invalid_index [VList [VInt 1]] "0" ["x"]
           (Exn ValueError "Invalid array index: 0") eq_refl eq_refl).
Defined.

(** X10 on an operation that does not exist. *)
Lemma process_json_validate :
  data_tools.process_json example.fs example.clk (fun _ => VNone)
    (json_args "test_data.json" "validate")
  = Ok (VDict
          [ ("file_path", VStr "test_data.json");
            ("operation", VStr "validate");
            ("file_size", VInt 120);
            ("processing_timestamp", VStr "2024-01-01T00:00:00") ]).
Proof.
  apply (process_json_other_operation example.fs example.clk (fun _ => VNone)
           (json_args "test_data.json" "validate") "test_data.json" "validate"
           example.test_data eq_refl eq_refl eq_refl eq_refl eq_refl);
    discriminate.
Defined.

(** X11 on the file of the repository's own test, which has no private
    key: both keys are kept. *)
Lemma process_json_transform_test_data :
  exists kept : list (string * value),
    data_tools.process_json example.fs example.clk (fun _ => VNone)
      (json_args "test_data.json" "transform")
    = Ok (VDict
            (base_result example.fs example.clk "test_data.json"
               (VStr "transform")
             ++ transformed_object
                  [ ("users",
                     VList [ VDict [("name", VStr "John"); ("age", VInt 25)];
                             VDict [("name", VStr "Jane"); ("age", VInt 30)] ]);
                    ("metadata",
                     VDict [("total", VInt 2); ("created", VStr "2024-01-01")]) ]
                  kept))
    /\ dict_get kept "metadata"
       = Some (VDict [("total", VInt 2); ("created", VStr "2024-01-01")]).
Proof.
  destruct (process_json_transform example.fs example.clk (fun _ => VNone)
              (json_args "test_data.json" "transform") "test_data.json"
              example.test_data eq_refl eq_refl eq_refl eq_refl eq_refl)
    as (kept & Hresult & Hkept).
  exists kept. split; [exact Hresult |]. exact (Hkept "metadata").
Defined.

(** X12 on a file that is not JSON. *)
Lemma process_json_not_json :
  data_tools.process_json sample.fs example.clk (fun _ => VNone)
    (json_args "notes.json" "analyze")
  = raise Exception
      "JSON processing failed: Invalid JSON: Expecting value: line 1 column 1 (char 0)".
Proof.
  exact (proj2 (proj2 (process_json_file_failures sample.fs example.clk
                         (fun _ => VNone) (json_args "notes.json" "analyze")))
           "notes.json"
           (Exn JSONDecodeError "Expecting value: line 1 column 1 (char 0)")
           eq_refl eq_refl eq_refl eq_refl).
Defined.

(** ** Detailed reports *)

Section detailed_reports.
Variable clk : clock.
Variable summary insights : value -> result value.
Variable markdown dumps : value -> result string.
Variable str : value -> string.

(** X13.  A detailed report on an analysis whose [missing_values] is
    an empty object fails with a division by zero, whatever the format
    asked for: the average is taken over no column. *)
Theorem generate_report_detailed_no_columns (args : kwargs)
    (data : list (string * value)) :
  args !! "data" = Some (VDict data) ->
  dict_get data "missing_values" = Some (VDict []) ->
  args !! "report_type" = Some (VStr "detailed") ->
  data_tools.generate_report clk summary insights markdown dumps str args
  = raise Exception "Report generation failed: division by zero".
Proof.
  intros Hdata Hmissing Htype.
  unfold data_tools.generate_report, get. rewrite Hdata, Htype.
  cbn [default from_option id].
  destruct data as [| column data']; [discriminate |].
  cbn [truthy negb is_str].
  replace (String.eqb "detailed" "summary") with false by reflexivity.
  replace (String.eqb "detailed" "detailed") with true by reflexivity.
  unfold _generate_detailed_report, _calculate_quality_score.
  cbn [contains_key subscript]. rewrite Hmissing. reflexivity.
Qed.

Lemma subscript_ok (v x : value) (k : string) :
  subscript v k = Ok x ->
  exists info, v = VDict info /\ dict_get info k = Some x.
Proof.
  destruct v as [| | | | | | info]; cbn; try discriminate.
  destruct (dict_get info k) as [y |] eqn:Hy; [| discriminate].
  intros H. injection H as <-. exists info. now split.
Qed.

(** A sum that succeeds has added a number for each element. *)
Lemma sum_from_ok {A} (f : A -> result value) (xs : list A) :
  forall (acc t : number),
    sum_from acc f xs = Ok t ->
    Forall (fun x => exists v, f x = Ok v /\ is_Some (number_of v)) xs.
Proof.
  induction xs as [| x xs IH]; intros acc t Ht; [constructor |].
  cbn [sum_from] in Ht. destruct (f x) as [v | e] eqn:Hv; [| discriminate].
  revert Ht. run. unfold arith. rewrite number_of_value_of.
  destruct (number_of v) as [n |] eqn:Hn; [| discriminate].
  destruct (add acc n) as [acc' | e]; [| discriminate]. run.
  intros Ht. constructor; [eauto | now apply IH with acc' t].
Qed.

(** A loop that succeeds has run its body on each element. *)
Lemma for_ok {A S} (body : S -> A -> result S) (P : A -> Prop) :
  (forall acc x acc', body acc x = Ok acc' -> P x) ->
  forall (xs : list A) (acc r : S),
    for_ xs acc body = Ok r -> Forall P xs.
Proof.
  intros Hbody. induction xs as [| x xs IH]; intros acc r Hr; [constructor |].
  cbn [for_] in Hr. destruct (body acc x) as [acc' |] eqn:Hx; [| discriminate].
  constructor; [now apply Hbody with acc acc' | now apply IH with acc' r].
Qed.

(** X14.  A detailed report is produced only for an analysis whose
    [missing_values], when it has one, is an object of at least one
    column, each column being an object with a number under
    [percentage] and an entry under [count]. *)
Theorem detailed_report_columns (data : list (string * value))
    (missing report : value) :
  _generate_detailed_report clk (VDict data) = Ok report ->
  dict_get data "missing_values" = Some missing ->
  exists columns : list (string * value),
    missing = VDict columns
    /\ columns <> []
    /\ Forall
         (fun column =>
            exists (info : list (string * value)) (p c : value),
              snd column = VDict info
              /\ dict_get info "percentage" = Some p
              /\ is_Some (number_of p)
              /\ dict_get info "count" = Some c)
         columns.
Proof.
  intros Hreport Hmissing. unfold _generate_detailed_report in Hreport.
  destruct (_calculate_quality_score (VDict data)) as [q |] eqn:Hq;
    [| discriminate].
  destruct (_analyze_fields (VDict data)) as [fields |] eqn:Hfields;
    [| discriminate].
  clear Hreport. unfold _calculate_quality_score in Hq.
  unfold _analyze_fields in Hfields.
  cbn [contains_key subscript] in Hq, Hfields. rewrite Hmissing in Hq, Hfields.
  revert Hq Hfields. run. cbn [negb]. run.
  destruct missing as [| | | | | | columns]; try discriminate.
  cbn [values items len]. run.
  destruct (sum (fun v => subscript v "percentage") (map snd columns))
    as [total_missing |] eqn:Hsum; [| discriminate].
  run. intros Hq.
  destruct (for_ columns [] _) as [field_analysis |] eqn:Hfor; [| discriminate].
  intros _. exists columns. repeat split.
  - intros ->. cbn in Hsum. injection Hsum as <-. discriminate.
  - apply sum_from_ok in Hsum. rewrite Forall_map in Hsum.
    eapply for_ok with
      (P := fun column : string * value =>
              exists c, subscript (snd column) "count" = Ok c) in Hfor.
    + rewrite Forall_forall in Hsum, Hfor. apply Forall_forall.
      intros column Hin.
      destruct (Hsum column Hin) as (p & Hp & Hnum).
      destruct (Hfor column Hin) as (c & Hc).
      apply subscript_ok in Hp as (info & Hinfo & Hp).
      apply subscript_ok in Hc as (info' & Hinfo' & Hc).
      assert (info' = info) as -> by congruence.
      exists info, p, c. auto.
    + intros acc [field missing_info] acc'. run. cbn [snd].
      destruct (subscript missing_info "percentage"); [| discriminate]. run.
      destruct (arith "-" sub (VInt 100) _); [| discriminate]. run.
      destruct (subscript missing_info "count") as [c |]; [| discriminate].
      eauto.
Qed.

End detailed_reports.

(** X13 on an analysis of a file without columns. *)
Lemma generate_report_no_columns :
  data_tools.generate_report example.clk
    (fun _ => Ok VNone) (fun _ => Ok VNone)
    (fun _ => Ok EmptyString) (fun _ => Ok EmptyString) (fun _ => EmptyString)
    (<["data" := VDict [("total_rows", VInt 0); ("missing_values", VDict [])]]>
       (<["report_type" := VStr "detailed"]> ∅))
  = raise Exception "Report generation failed: division by zero".
Proof.
  exact (generate_report_detailed_no_columns example.clk
           (fun _ => Ok VNone) (fun _ => Ok VNone)
           (fun _ => Ok EmptyString) (fun _ => Ok EmptyString)
           (fun _ => EmptyString)
           (<["data" := VDict [("total_rows", VInt 0);
                               ("missing_values", VDict [])]]>
              (<["report_type" := VStr "detailed"]> ∅))
           [("total_rows", VInt 0); ("missing_values", VDict [])]
           eq_refl eq_refl eq_refl).
Defined.

(** X14 on the analysis of a file of three rows, one of which lacks
    the age. *)
Lemma detailed_report_one_age_missing :
  exists columns : list (string * value),
    VDict [ ("age",
             VDict [ ("count", VInt 1);
                     ("percentage", VFloat (1 / 3 * 100)) ]) ]
    = VDict columns
    /\ columns <> []
    /\ Forall
         (fun column =>
            exists (info : list (string * value)) (p c : value),
              snd column = VDict info
              /\ dict_get info "percentage" = Some p
              /\ is_Some (number_of p)
              /\ dict_get info "count" = Some c)
         columns.
Proof.
  eapply (detailed_report_columns example.clk example.one_age_missing);
    [vm_compute; reflexivity | reflexivity].
Defined.

(** ** More on downloads *)

Section traces.

Lemma trace_bind {A B} (c : io A) (k : A -> io B) :
  trace (c ≫= k)
  = (trace c ++ match outcome c with Ok a => trace (k a) | Raise _ => [] end)%list.
Proof.
  destruct c as [t [a | e]]; cbn [mbind io_mbind io_bind trace outcome].
  - now destruct (k a).
  - now rewrite app_nil_r.
Qed.

Lemma outcome_bind {A B} (c : io A) (k : A -> io B) :
  outcome (c ≫= k)
  = match outcome c with Ok a => outcome (k a) | Raise e => Raise e end.
Proof.
  destruct c as [t [a | e]]; cbn [mbind io_mbind io_bind trace outcome].
  - now destruct (k a).
  - reflexivity.
Qed.

Lemma trace_finally {A} (c : io A) (leave : event) :
  trace (finally_ c leave) = (trace c ++ [leave])%list.
Proof. now destruct c. Qed.

Lemma outcome_finally {A} (c : io A) (leave : event) :
  outcome (finally_ c leave) = outcome c.
Proof. now destruct c. Qed.

(** A clause that only raises adds nothing to the trace. *)
Lemma trace_try_raise {A} (c : io A) (f : exn -> result A) :
  trace (io_try c [(Exception, fun e => lift (f e))]) = trace c.
Proof.
  destruct c as [t [a | e]]; cbn [io_try trace issubclass lift];
    [reflexivity | apply app_nil_r].
Qed.

Lemma outcome_try_raise {A} (c : io A) (f : exn -> result A) :
  outcome (io_try c [(Exception, fun e => lift (f e))])
  = try_ (outcome c) [(Exception, f)].
Proof. now destruct c as [t [a | e]]. Qed.

End traces.

Ltac traces :=
  repeat
    (progress
       (rewrite ?trace_bind, ?outcome_bind, ?trace_finally, ?outcome_finally,
          ?trace_try_raise, ?outcome_try_raise;
        cbn [trace outcome emit lift mret io_mret])).

Section download_events.
Variable w : web.

Lemma chunks_during (chunks : list (result nat)) :
  forall size : Z,
    Forall during_download (trace (download_chunks chunks size)).
Proof.
  induction chunks as [| [n | e] chunks IH]; intros size;
    cbn [download_chunks]; traces; [constructor | | constructor].
  cbn [app]. constructor; [exact I |].
  destruct (_ >? _)%Z; [constructor | apply IH].
Qed.

Lemma transfer_during (url f : value) :
  (forall s, f = VStr s -> plain s = true) ->
  Forall during_download (trace (transfer w url f)).
Proof.
  intros Hplain. unfold transfer. traces. cbn [app]. constructor; [exact I |].
  destruct (session_get w url) as [response | e]; [| constructor].
  traces. apply Forall_app. split; [| repeat constructor].
  destruct (status response =? 200)%Z; cbn [negb]; [| constructor].
  traces. apply Forall_app. split.
  - destruct (content_length response) as [cl |]; [| constructor].
    destruct (truthy (VStr cl)); [| constructor]. traces.
    destruct (int_ cl) as [n | e]; [| constructor].
    destruct (n >? MAX_RESPONSE_SIZE)%Z; constructor.
  - match goal with
    | |- Forall _ (match ?c with Ok _ => _ | Raise _ => _ end) =>
        destruct c; [| constructor]
    end.
    cbn [app]. constructor.
    { destruct f; try exact I. now apply Hplain. }
    destruct (aiofiles_open w f) as [[] | e]; [| constructor].
    traces. rewrite !Forall_app. repeat split.
    + apply chunks_during.
    + repeat constructor.
    + destruct (outcome (download_chunks _ _)); constructor.
Qed.

Lemma _validate_url_during (url : value) :
  Forall during_download (trace (_validate_url w url)).
Proof.
  unfold _validate_url. traces.
  destruct (urlparse w url) as [parsed | e]; [| constructor].
  destruct (bool_decide _); cbn [negb]; [| constructor]. traces.
  destruct (existsb _ _); cbn [negb]; repeat constructor.
Qed.

(** The whole of a download: a permit is taken, things happen under
    it, and it is given back. *)
Lemma download_file_shape (args : kwargs) :
  exists t : list event,
    trace (web_tools.download_file w args) = Acquire :: t ++ [Release]
    /\ Forall during_download t.
Proof.
  unfold web_tools.download_file. traces. cbn [app].
  eexists. split; [reflexivity |].
  destruct (truthy (get args "url" (VStr EmptyString))); cbn [negb]; traces;
    [| constructor].
  apply Forall_app. split; [apply _validate_url_during |].
  destruct (outcome (_validate_url w _)) as [validated | e]; [| constructor].
  traces. apply Forall_app. split.
  - destruct (truthy (get args "filename" (VStr EmptyString))); cbn [negb];
      traces; [constructor |].
    destruct (urlparse w validated); constructor.
  - match goal with
    | |- Forall _ (match ?c with Ok _ => _ | Raise _ => _ end) =>
        destruct c as [filename | e]; [| constructor]
    end.
    traces.
    destruct (contains_key filename "..") as [[] | e] eqn:Hdots; traces;
      try constructor.
    destruct (contains_key filename "/") as [[] | e] eqn:Hslash; traces;
      try constructor.
    rewrite app_nil_l. apply transfer_during. intros s ->.
    cbn in Hdots, Hslash. injection Hdots as Hdots. injection Hslash as Hslash.
    unfold plain. now rewrite Hdots, Hslash.
Qed.

Lemma permits_during (t : list event) :
  Forall during_download t -> permits t = [].
Proof.
  induction 1 as [| e t He _ IH]; [reflexivity |].
  destruct e; cbn in He |- *; try exact IH; contradiction.
Qed.

(** X15.  Whatever the arguments and whatever the network answers, a
    download asks to open no file whose name holds [..] or [/]: a name
    taken from the URL is checked like a name that is given. *)
Theorem download_file_opens_plain_names (args : kwargs) (s : string) :
  VStr s ∈ opened (trace (web_tools.download_file w args)) -> plain s = true.
Proof.
  destruct (download_file_shape args) as (t & -> & Hduring).
  unfold opened. rewrite list_elem_of_In, in_flat_map.
  intros (e & Hin & Hs). destruct Hin as [<- | Hin]; [inversion Hs |].
  apply in_app_or in Hin as [Hin | [<- | []]]; [| inversion Hs].
  rewrite Forall_forall in Hduring. apply list_elem_of_In, Hduring in Hin.
  destruct e; try (now inversion Hs).
  cbn in Hs. destruct Hs as [Hs | []]. subst filename. exact Hin.
Qed.

(** X16.  Whatever the arguments and whatever happens, a download takes
    one permit of the semaphore before anything else and gives it back
    as the last thing it does. *)
Theorem download_file_permit (args : kwargs) :
  exists t : list event,
    trace (web_tools.download_file w args) = Acquire :: t ++ [Release]
    /\ permits (trace (web_tools.download_file w args)) = [Acquire; Release].
Proof.
  destruct (download_file_shape args) as (t & Ht & Hduring).
  exists t. split; [exact Ht |]. rewrite Ht.
  unfold permits. cbn [List.filter]. rewrite List.filter_app.
  fold (permits t). now rewrite (permits_during t Hduring).
Qed.

End download_events.

Section accepted_downloads.
Variable w : web.

Lemma opened_app (t t' : list event) :
  opened (t ++ t') = (opened t ++ opened t')%list.
Proof. apply flat_map_app. Qed.

Lemma written_app (t t' : list event) :
  written (t ++ t') = (written t + written t')%Z.
Proof.
  induction t as [| e t IH]; [reflexivity |].
  cbn [app written fold_right]. fold (written (t ++ t')). fold (written t).
  rewrite IH. destruct e; lia.
Qed.

Lemma opened_cons (e : event) (t : list event) :
  opened (e :: t)
  = (match e with OpenFile f => [f] | _ => [] end ++ opened t)%list.
Proof. reflexivity. Qed.

Lemma written_cons (e : event) (t : list event) :
  written (e :: t)
  = match e with
    | Write k => (Z.of_nat k + written t)%Z
    | _ => written t
    end.
Proof. reflexivity. Qed.

Lemma opened_writes (sizes : list nat) : opened (map Write sizes) = [].
Proof. induction sizes; [reflexivity | assumption]. Qed.

Lemma written_writes (sizes : list nat) :
  written (map Write sizes) = body_size sizes.
Proof.
  induction sizes as [| k sizes IH]; [reflexivity |].
  cbn [map]. rewrite written_cons, IH. reflexivity.
Qed.

(** A download whose arguments pass the checks is the transfer, under
    the permit and after at most a warning. *)
Lemma download_file_accepted (url filename : string) :
  accepted w url filename = true ->
  exists warn : list event,
    opened warn = [] /\ written warn = 0%Z
    /\ trace (web_tools.download_file w (download_args url filename))
       = Acquire :: warn
           ++ trace (transfer w (VStr url) (VStr filename)) ++ [Release]
    /\ outcome (web_tools.download_file w (download_args url filename))
       = try_ (outcome (transfer w (VStr url) (VStr filename)))
           [ (Exception,
              fun e => raise Exception ("Download failed: " ++ str_of_exn e)) ].
Proof.
  unfold accepted. intros Haccepted.
  apply andb_prop in Haccepted as [Haccepted Hplain].
  apply andb_prop in Haccepted as [Haccepted Hname].
  apply andb_prop in Haccepted as [Hurl Hparsed].
  destruct (urlparse w (VStr url)) as [parsed |] eqn:Hparse; [| discriminate].
  apply andb_prop in Hplain as [Hdots Hslash].
  apply negb_true_iff in Hdots, Hslash.
  exists (warning parsed).
  assert (Hvalid : _validate_url w (VStr url)
                   = IO (warning parsed) (Ok (VStr url))).
  { unfold _validate_url, warning. rewrite Hparse. run_io. rewrite Hparsed.
    cbn [negb]. run_io.
    destruct (existsb _ _); cbn [negb]; run_io; reflexivity. }
  assert (Hwarn : opened (warning parsed) = [] /\ written (warning parsed) = 0%Z)
    by (unfold warning; destruct (existsb _ _); split; reflexivity).
  destruct Hwarn as [Hopened Hwritten]. repeat split; try assumption.
  - unfold web_tools.download_file.
    replace (get (download_args url filename) "url" (VStr EmptyString))
      with (VStr url) by reflexivity.
    replace (get (download_args url filename) "filename" (VStr EmptyString))
      with (VStr filename) by reflexivity.
    rewrite Hurl, Hname, Hvalid. cbn [negb]. traces. cbn [contains_key].
    rewrite Hdots. traces. cbn [contains_key]. rewrite Hslash. traces.
    cbn [app]. now rewrite <- List.app_assoc.
  - unfold web_tools.download_file.
    replace (get (download_args url filename) "url" (VStr EmptyString))
      with (VStr url) by reflexivity.
    replace (get (download_args url filename) "filename" (VStr EmptyString))
      with (VStr filename) by reflexivity.
    rewrite Hurl, Hname, Hvalid. cbn [negb]. traces. cbn [contains_key].
    rewrite Hdots. traces. cbn [contains_key]. rewrite Hslash. traces.
    reflexivity.
Qed.

(** The loop over chunks that all arrive. *)
Lemma download_chunks_within (sizes : list nat) :
  forall size : Z,
    (size + body_size sizes <= MAX_RESPONSE_SIZE)%Z ->
    download_chunks (map Ok sizes) size
    = IO (map Write sizes) (Ok (size + body_size sizes)%Z).
Proof.
  induction sizes as [| n sizes IH]; intros size Hsize.
  - cbn. now rewrite Z.add_0_r.
  - cbn [map download_chunks body_size fold_right] in *.
    fold (body_size sizes) in *.
    assert (Hrest : (0 <= body_size sizes)%Z).
    { clear. induction sizes as [| k sizes IH]; [reflexivity |].
      cbn [body_size fold_right]. fold (body_size sizes). lia. }
    run_io.
    replace (size + Z.of_nat n >? MAX_RESPONSE_SIZE)%Z with false
      by (symmetry; rewrite Z.gtb_ltb; apply Z.ltb_ge; lia).
    rewrite IH by lia. cbn [app]. do 2 f_equal. lia.
Qed.


(** The check of the declared size, when it passes. *)
Lemma declared_within_passes (response : ClientResponse) :
  declared_within response = true ->
  match content_length response with
  | Some cl =>
      if truthy (VStr cl) then
        n ← lift (int_ cl);
        if (n >? MAX_RESPONSE_SIZE)%Z
        then lift (raise ValueError ("File too large: " ++ cl ++ " bytes"))
        else mret tt
      else mret tt
  | None => mret tt
  end = IO [] (Ok tt).
Proof.
  unfold declared_within.
  destruct (content_length response) as [cl |]; [| reflexivity].
  destruct (truthy (VStr cl)); [| reflexivity].
  unfold int_. destruct (int_of_str cl) as [n |]; [| discriminate].
  run_io. now destruct (n >? MAX_RESPONSE_SIZE)%Z.
Qed.

(** The transfer once the response is there and is accepted. *)
Lemma transfer_started (url filename : value) (response : ClientResponse) :
  session_get w url = Ok response ->
  status response = 200%Z ->
  declared_within response = true ->
  aiofiles_open w filename = Ok tt ->
  trace (transfer w url filename)
  = Connect url :: OpenFile filename
      :: trace (download_chunks (chunks response) 0) ++ [CloseFile; Disconnect]
  /\ outcome (transfer w url filename)
     = (size ← outcome (download_chunks (chunks response) 0);
        Ok (VDict
              [ ("url", url);
                ("filename", filename);
                ("size", VInt size);
                ("content_type", VStr (content_type response));
                ("success", VBool true) ])).
Proof.
  intros Hresponse Hstatus Hdeclared Hopen. unfold transfer.
  rewrite Hresponse. traces. rewrite Hstatus. cbn [Z.eqb Pos.eqb negb].
  rewrite (declared_within_passes response Hdeclared), Hopen. traces.
  destruct (download_chunks (chunks response) 0) as [t [size | e]];
    cbn [trace outcome]; run; traces; split; try reflexivity;
    cbn [app]; now rewrite <- ?List.app_assoc.
Qed.

(** X17.  A download whose arguments pass the checks, from a server
    that answers 200 and declares no size beyond the limit, of a body
    whose chunks add up to no more than the limit: the answer gives the
    sum of the chunks as the size, one file was opened, under the name
    given, and the bytes written to it are those of the body. *)
Theorem download_file_stores (url filename : string)
    (response : ClientResponse) (sizes : list nat) :
  accepted w url filename = true ->
  session_get w (VStr url) = Ok response ->
  status response = 200%Z ->
  declared_within response = true ->
  aiofiles_open w (VStr filename) = Ok tt ->
  chunks response = map Ok sizes ->
  (body_size sizes <= MAX_RESPONSE_SIZE)%Z ->
  let call := web_tools.download_file w (download_args url filename) in
  outcome call = Ok (downloaded url filename response (body_size sizes))
  /\ opened (trace call) = [VStr filename]
  /\ written (trace call) = body_size sizes.
Proof.
  intros Haccepted Hresponse Hstatus Hdeclared Hopen Hchunks Hsize call.
  destruct (download_file_accepted url filename Haccepted)
    as (warn & Hopened & Hwritten & Htrace & Houtcome).
  destruct (transfer_started _ _ _ Hresponse Hstatus Hdeclared Hopen)
    as [Htransfer Hresult].
  rewrite Hchunks, (download_chunks_within sizes 0 Hsize) in Htransfer, Hresult.
  cbn [trace outcome] in Htransfer, Hresult.
  subst call. rewrite Houtcome, Htrace, Hresult, Htransfer. repeat split.
  - rewrite !opened_cons, !opened_app, !opened_cons, opened_app.
    now rewrite Hopened, opened_writes.
  - rewrite !written_cons, !written_app, !written_cons, written_app.
    rewrite Hwritten, written_writes. cbn [written fold_right]. lia.
Qed.


(** X19.  When the server answers with another status than 200, or
    declares a size beyond the limit, the download fails before any
    file is opened. *)
Theorem download_file_refused (url filename : string)
    (response : ClientResponse) :
  accepted w url filename = true ->
  session_get w (VStr url) = Ok response ->
  let call := web_tools.download_file w (download_args url filename) in
  (status response <> 200%Z ->
   outcome call
   = raise Exception
       ("Download failed: Download failed with status "
          ++ str_of_int (status response))
   /\ opened (trace call) = [])
  /\ (forall (cl : string) (n : Z),
         status response = 200%Z ->
         content_length response = Some cl ->
         int_of_str cl = Some n ->
         (n > MAX_RESPONSE_SIZE)%Z ->
         outcome call
         = raise Exception
             ("Download failed: File too large: " ++ cl ++ " bytes")
         /\ opened (trace call) = []).
Proof.
  intros Haccepted Hresponse call.
  destruct (download_file_accepted url filename Haccepted)
    as (warn & Hopened & Hwritten & Htrace & Houtcome).
  subst call. rewrite Houtcome, Htrace.
  rewrite opened_cons, !opened_app, Hopened.
  unfold transfer. rewrite Hresponse. traces.
  split.
  - intros Hstatus. apply Z.eqb_neq in Hstatus. rewrite Hstatus.
    cbn [negb]. traces. split; reflexivity.
  - intros cl n Hstatus Hcl Hn Hover. rewrite Hstatus, Hcl.
    cbn [Z.eqb Pos.eqb negb]. traces.
    assert (Htruthy : truthy (VStr cl) = true)
      by (destruct cl; [discriminate Hn | reflexivity]).
    rewrite Htruthy. unfold int_. rewrite Hn. traces.
    replace (n >? MAX_RESPONSE_SIZE)%Z with true
      by (symmetry; rewrite Z.gtb_ltb; apply Z.ltb_lt; lia).
    traces. split; reflexivity.
Qed.

End accepted_downloads.

Section hosts.
Variable w : web.

Lemma endswith_refl (s : string) : endswith s s = true.
Proof. destruct s; cbn [endswith]; now rewrite String.eqb_refl. Qed.

Lemma endswith_app (sub s : string) : endswith (sub ++ s) s = true.
Proof.
  induction sub as [| c sub IH]; [rewrite app_empty; apply endswith_refl |].
  rewrite app_cons. cbn [endswith]. rewrite IH. apply orb_true_r.
Qed.

(** X20.  The list of allowed domains refuses nothing: a URL whose
    scheme is HTTP or HTTPS is validated whatever its host, the list
    deciding only whether a warning is printed; and no warning is
    printed for a host whose name ends with an allowed domain, be it
    another domain such as [notexample.com]. *)
Theorem _validate_url_any_host (url : value) (parsed : ParseResult) :
  urlparse w url = Ok parsed ->
  scheme parsed ∈ ["http"; "https"] ->
  outcome (_validate_url w url) = Ok url
  /\ forall domain sub : string,
       domain ∈ ALLOWED_DOMAINS ->
       netloc parsed = sub ++ domain ->
       trace (_validate_url w url) = [].
Proof.
  intros Hparsed Hscheme. unfold _validate_url. rewrite Hparsed. run_io.
  rewrite (bool_decide_eq_true_2 _ Hscheme). cbn [negb]. run_io.
  split.
  - destruct (existsb _ _); reflexivity.
  - intros domain sub Hdomain Hnetloc.
    replace (existsb (endswith (netloc parsed)) ALLOWED_DOMAINS) with true;
      [reflexivity |].
    symmetry. apply existsb_exists. exists domain.
    split; [now apply list_elem_of_In |].
    rewrite Hnetloc. apply endswith_app.
Qed.

End hosts.

(** X15 on a download that succeeds: the file opened is the one
    named. *)
Lemma download_file_opens_small :
  VStr "small.txt"
    ∈ opened (trace (web_tools.download_file sample.web
                       (download_args "https://example.com/small.txt"
                          "small.txt")))
  /\ plain "small.txt" = true.
Proof.
  assert (Hopened :
    VStr "small.txt"
      ∈ opened (trace (web_tools.download_file sample.web
                         (download_args "https://example.com/small.txt"
                            "small.txt")))).
  { assert (E : opened (trace (web_tools.download_file sample.web
                                 (download_args "https://example.com/small.txt"
                                    "small.txt")))
                = [VStr "small.txt"]) by (vm_compute; reflexivity).
    rewrite E. apply elem_of_cons. now left. }
  split; [exact Hopened |].
  exact (download_file_opens_plain_names sample.web _ _ Hopened).
Defined.

(** X17 on a file of two chunks. *)
Lemma download_file_small :
  outcome (web_tools.download_file sample.web
             (download_args "https://example.com/small.txt" "small.txt"))
  = Ok (downloaded "https://example.com/small.txt" "small.txt"
          sample.small 8292)
  /\ written (trace (web_tools.download_file sample.web
                       (download_args "https://example.com/small.txt"
                          "small.txt")))
     = 8292%Z.
Proof.
  destruct (download_file_stores sample.web
              "https://example.com/small.txt" "small.txt" sample.small
              [Z.to_nat 8192; 100%nat]
              eq_refl eq_refl eq_refl eq_refl eq_refl eq_refl)
    as (Houtcome & _ & Hwritten).
  - vm_compute. discriminate.
  - split; [exact Houtcome | exact Hwritten].
Defined.


(** X19 on a page that is not there. *)
Lemma download_file_gone :
  outcome (web_tools.download_file sample.web
             (download_args "https://example.com/gone.txt" "gone.txt"))
  = raise Exception "Download failed: Download failed with status 404"
  /\ opened (trace (web_tools.download_file sample.web
                      (download_args "https://example.com/gone.txt" "gone.txt")))
     = [].
Proof.
  apply (download_file_refused sample.web
           "https://example.com/gone.txt" "gone.txt" sample.gone
           eq_refl eq_refl).
  discriminate.
Defined.

(** X20 on a host that is not allowed but ends like one that is. *)
Lemma _validate_url_notexample :
  outcome (_validate_url example.web (VStr "https://notexample.com/x"))
  = Ok (VStr "https://notexample.com/x")
  /\ trace (_validate_url example.web (VStr "https://notexample.com/x")) = [].
Proof.
  destruct (_validate_url_any_host example.web
              (VStr "https://notexample.com/x")
              (mkParseResult "https" "notexample.com" "/x") eq_refl)
    as [Houtcome Htrace].
  - apply elem_of_cons. right. apply elem_of_cons. now left.
  - split; [exact Houtcome |].
    apply (Htrace "example.com" "not"); [| reflexivity].
    apply elem_of_cons. now left.
Defined.

(** ** More on the server *)

Section registries.
Variable h : host.

(** X21.  The tools that the server lists are the tools that a call
    routes: each name registered has a handler, and each handler is
    that of a name registered. *)
Theorem tools_are_routed (name : string) :
  is_Some (tools !! name) <-> is_Some (handler_of h name).
Proof.
  split.
  - unfold tools. rewrite !register_is_Some, lookup_empty. cbn [map].
    unfold get_data_tools, get_web_tools, file_tools.get_file_tools,
      get_calculator_tools.
    cbn [map tool_name]. rewrite !elem_of_cons, !elem_of_nil.
    intros Hname.
    repeat match type of Hname with
           | _ \/ _ => destruct Hname as [Hname | Hname]
           end;
      try contradiction; try (subst name; eexists; reflexivity).
    destruct Hname as [? Hname]. discriminate.
  - intros Hhandler. destruct (tools !! name) as [tool |] eqn:Htool; [eauto |].
    rewrite (unregistered_no_handler h name Htool) in Hhandler.
    now destruct Hhandler.
Qed.

Lemma prompt_registered (name : string) :
  is_Some (prompts !! name) <-> name ∈ prompt_names.
Proof.
  unfold prompts, prompt_names. rewrite register_is_Some, lookup_empty.
  split; [intros [[? ?] | ?] |]; auto; discriminate.
Qed.

(** X22.  A prompt request succeeds exactly for the five names
    registered, whatever arguments come with it: none, too few, or
    others than the prompt declares; for another name it fails with
    "Prompt not found". *)
Theorem handle_get_prompt_succeeds (name : string)
    (supplied : option (list (string * value))) :
  is_ok (handle_get_prompt h name supplied)
  = bool_decide (name ∈ prompt_names)
  /\ (name ∉ prompt_names ->
      handle_get_prompt h name supplied
      = raise ValueError ("Prompt not found: " ++ name)).
Proof.
  rewrite <- (bool_decide_ext _ _ (prompt_registered name)).
  unfold handle_get_prompt.
  destruct (prompts !! name) as [prompt |] eqn:Hprompt.
  - split; [reflexivity |]. intros Hname. exfalso. apply Hname.
    apply prompt_registered. now rewrite Hprompt.
  - split; reflexivity.
Qed.




End registries.


(** X21 on the first tool. *)
Lemma tools_are_routed_add :
  is_Some (tools !! "add") /\ is_Some (handler_of example.host "add").
Proof.
  assert (Hadd : is_Some (tools !! "add")) by (eexists; reflexivity).
  split; [exact Hadd |].
  exact (proj1 (tools_are_routed example.host "add") Hadd).
Defined.

(** X22 on a name that is not registered. *)
Lemma handle_get_prompt_summarize :
  handle_get_prompt example.host "summarize" None
  = raise ValueError "Prompt not found: summarize".
Proof.
  apply (proj2 (handle_get_prompt_succeeds example.host "summarize" None)).
  unfold prompt_names. cbn [map prompt_name get_analysis_prompts].
  rewrite !elem_of_cons, elem_of_nil. intuition discriminate.
Defined.


(** ** Advanced operations *)

Section advanced_operations.
Variable rt : runtime.
Variable m : advanced.libm.

(** X25.  The square root is refused for the numbers less than zero
    and for no others, so that [-0.0] and a NaN have one; when it is
    not refused it is the correctly rounded root, whatever the [math]
    library behind the other operations.  The logarithm of a number not
    greater than zero is refused before the base is looked at. *)
Theorem calculate_advanced_domain (args : kwargs) (x : float) :
  float_ rt (get args "x" (VInt 0)) = Ok x ->
  is_ok (advanced.calculate_advanced rt m "sqrt" args) = negb (PrimFloat.ltb x 0)
  /\ (PrimFloat.ltb x 0 = false ->
      result_of (advanced.calculate_advanced rt m "sqrt" args)
      = Some (VFloat (PrimFloat.sqrt x)))
  /\ (PrimFloat.leb x 0 = true ->
      advanced.calculate_advanced rt m "log" args
      = raise ValueError
          "Invalid input: Cannot take logarithm of non-positive number").
Proof.
  intros Hx. unfold advanced.calculate_advanced. rewrite Hx. run.
  replace (String.eqb "sqrt" "power") with false by reflexivity.
  replace (String.eqb "sqrt" "sqrt") with true by reflexivity.
  replace (String.eqb "log" "power") with false by reflexivity.
  replace (String.eqb "log" "sqrt") with false by reflexivity.
  replace (String.eqb "log" "log") with true by reflexivity.
  unfold advanced.sqrt. repeat split.
  - destruct (PrimFloat.ltb x 0); reflexivity.
  - intros Hlt. rewrite Hlt. reflexivity.
  - intros Hle. rewrite Hle. reflexivity.
Qed.

(** X26.  An operand that is left out has a value: [x] is taken to be
    0 and the exponent [y] to be 2, so that a power without exponent is
    a square. *)
Theorem calculate_advanced_defaults (operation : string) (args : kwargs) :
  (args !! "x" = None ->
   advanced.calculate_advanced rt m operation args
   = advanced.calculate_advanced rt m operation (<["x" := VInt 0]> args))
  /\ (args !! "y" = None ->
      advanced.calculate_advanced rt m "power" args
      = advanced.calculate_advanced rt m "power" (<["y" := VInt 2]> args)).
Proof.
  split; intros Hnone; unfold advanced.calculate_advanced, get.
  - rewrite lookup_insert_eq, Hnone.
    rewrite !lookup_insert_ne by discriminate. reflexivity.
  - rewrite lookup_insert_eq, Hnone.
    rewrite !lookup_insert_ne by discriminate. reflexivity.
Qed.

End advanced_operations.

(** ** Paths *)

Section paths.
Variable pl : file_paths.pathlib.

Lemma startswith_cons (p : string) (c : ascii) (r : string) :
  startswith p (String c r) = true ->
  exists p', p = String c p' /\ startswith p' r = true.
Proof.
  destruct p as [| c' p']; cbn [startswith]; intros Hp; [discriminate Hp |].
  apply andb_prop in Hp as [Hc Hp].
  apply Ascii.eqb_eq in Hc. subst c'. eauto.
Qed.

(** No two restricted directories are the start of the same path. *)
Lemma restricted_unique (p r : string) :
  r ∈ file_paths.RESTRICTED_PATHS ->
  startswith p r = true ->
  List.find (startswith p) file_paths.RESTRICTED_PATHS = Some r.
Proof.
  unfold file_paths.RESTRICTED_PATHS. rewrite !elem_of_cons, elem_of_nil.
  intros Hr Hp.
  repeat (destruct Hr as [Hr | Hr]; [
    subst r;
    repeat match goal with
           | H : startswith _ (String _ _) = true |- _ =>
               let p' := fresh "p" in
               let Hp' := fresh "Hp" in
               destruct (startswith_cons _ _ _ H) as (p' & Hp' & ?);
               clear H; subst
           end;
    match goal with
    | H : startswith ?rest EmptyString = true |- _ => destruct rest
    end;
    reflexivity |]).
  contradiction.
Qed.

Lemma restricted_loop (p : string) (order : list string) :
  for_ order tt
    (fun _ restricted =>
       if startswith p restricted
       then raise ValueError ("Access to " ++ restricted ++ " is restricted")
       else Ok tt)
  = match List.find (startswith p) order with
    | Some restricted =>
        raise ValueError ("Access to " ++ restricted ++ " is restricted")
    | None => Ok tt
    end.
Proof.
  induction order as [| r order IH]; [reflexivity |].
  cbn [for_ List.find]. destruct (startswith p r); [reflexivity |].
  run. exact IH.
Qed.

(** X27.  The answer of [_validate_path] does not depend on the order
    in which the set of restricted directories is gone through: a path
    that resolves is refused when its text starts with the name of a
    restricted directory, be it in another directory such as
    [/etcetera], then when it holds [..], and is returned otherwise; a
    path that does not resolve is refused with the reason given. *)
Theorem _validate_path_any_order (order : list string) (file_path : value) :
  order ≡ₚ file_paths.RESTRICTED_PATHS ->
  file_paths._validate_path pl order file_path
  = match file_paths.resolve pl file_path with
    | Ok p => validated p
    | Raise e => raise ValueError ("Invalid path: " ++ str_of_exn e)
    end.
Proof.
  intros Horder. unfold file_paths._validate_path.
  destruct (file_paths.resolve pl file_path) as [p | e]; [| reflexivity].
  run. rewrite restricted_loop. unfold validated.
  assert (Hfind : List.find (startswith p) order
                  = List.find (startswith p) file_paths.RESTRICTED_PATHS).
  { destruct (List.find (startswith p) order) as [r |] eqn:Hr.
    - apply find_some in Hr as [Hin Hp]. symmetry.
      apply restricted_unique; [| exact Hp].
      rewrite <- Horder. now apply list_elem_of_In.
    - destruct (List.find (startswith p) file_paths.RESTRICTED_PATHS)
        as [r |] eqn:Hr'; [| reflexivity].
      apply find_some in Hr' as [Hin Hp].
      apply list_elem_of_In in Hin. rewrite <- Horder in Hin.
      apply list_elem_of_In in Hin.
      now rewrite (find_none _ _ Hr r Hin) in Hp. }
  rewrite Hfind.
  destruct (List.find (startswith p) file_paths.RESTRICTED_PATHS);
    [reflexivity |].
  run. destruct (contains ".." p); reflexivity.
Qed.

End paths.

(** X25 on a negative number and on the negative zero. *)
Lemma calculate_advanced_sqrt_minus_4 :
  advanced.calculate_advanced example.rt sample.libm "sqrt" (operand (VInt (-4)))
  = raise ValueError
      "Invalid input: Cannot take square root of negative number"
  /\ result_of (advanced.calculate_advanced example.rt sample.libm "sqrt"
                  (operand (VFloat (-0))))
     = Some (VFloat (-0)).
Proof.
  split; [reflexivity |].
  exact (proj1 (proj2 (calculate_advanced_domain example.rt sample.libm
                         (operand (VFloat (-0))) (-0) eq_refl))
           eq_refl).
Defined.

(** X26 on a power without exponent. *)
Lemma calculate_advanced_square :
  advanced.calculate_advanced example.rt sample.libm "power" (operand (VInt 3))
  = advanced.calculate_advanced example.rt sample.libm "power"
      (<["y" := VInt 2]> (operand (VInt 3))).
Proof.
  exact (proj2 (calculate_advanced_defaults example.rt sample.libm "power"
                  (operand (VInt 3)))
           eq_refl).
Defined.

(** X27 on a directory whose name starts like a restricted one, the
    set being gone through backwards. *)
Lemma _validate_path_etcetera :
  file_paths._validate_path sample.pathlib
    ["/home"; "/root"; "/var"; "/sbin"; "/bin"; "/usr"; "/etc"]
    (VStr "/etcetera/notes.txt")
  = raise ValueError "Invalid path: Access to /etc is restricted".
Proof.
  apply (_validate_path_any_order sample.pathlib
           ["/home"; "/root"; "/var"; "/sbin"; "/bin"; "/usr"; "/etc"]
           (VStr "/etcetera/notes.txt")).
  exact (reverse_Permutation file_paths.RESTRICTED_PATHS).
Defined.

(** ** Names taken from the URL, and fields *)

Section derived_names.
Variable w : web.

Lemma split_no_separator (s : string) :
  Forall (fun word => contains "/" word = false) (split "/" s).
Proof.
  induction s as [| c s IH]; [repeat constructor |].
  cbn [split]. destruct (Ascii.eqb c "/") eqn:Hc.
  - constructor; [reflexivity | exact IH].
  - destruct (split "/" s) as [| word words]; [repeat constructor |].
    + rewrite contains_cons. cbn [startswith contains].
      rewrite Ascii.eqb_sym, Hc. reflexivity.
    + inversion IH as [| ? ? Hword Hwords]; subst.
      constructor; [| exact Hwords].
      rewrite contains_cons, Hword. cbn [startswith].
      rewrite Ascii.eqb_sym, Hc. reflexivity.
Qed.

Lemma last_Forall {A} (P : A -> Prop) (l : list A) (d : A) :
  P d -> Forall P l -> P (List.last l d).
Proof.
  intros Hd. induction 1 as [| x l Hx Hl IH]; [exact Hd |].
  destruct l; [exact Hx | exact IH].
Qed.

Lemma derived_name_plain (parsed : ParseResult) :
  contains "/" (derived_name parsed) = false
  /\ truthy (VStr (derived_name parsed)) = true.
Proof.
  unfold derived_name. cbv zeta.
  destruct (String.eqb_spec (List.last (split "/" (path parsed)) EmptyString)
              EmptyString) as [_ | Hne]; [split; reflexivity |].
  split.
  - apply (last_Forall (fun word => contains "/" word = false));
      [reflexivity | apply split_no_separator].
  - cbn [truthy]. now rewrite (proj2 (String.eqb_neq _ _) Hne).
Qed.

(** X28.  A download without a filename, or with an empty one, is the
    download under the name that ends the path of the URL, and under
    [downloaded_file] when the path ends with a slash or is empty.  The
    name so derived holds no slash, so that only [..] can make it
    invalid. *)
Theorem download_file_derives_name (url : string) (parsed : ParseResult) :
  truthy (VStr url) = true ->
  urlparse w (VStr url) = Ok parsed ->
  scheme parsed ∈ ["http"; "https"] ->
  web_tools.download_file w (<["url" := VStr url]> ∅)
  = web_tools.download_file w (download_args url (derived_name parsed))
  /\ web_tools.download_file w (download_args url EmptyString)
     = web_tools.download_file w (download_args url (derived_name parsed))
  /\ contains "/" (derived_name parsed) = false.
Proof.
  intros Hurl Hparsed Hscheme.
  destruct (derived_name_plain parsed) as [Hslash Hname].
  assert (Hvalid : _validate_url w (VStr url)
                   = IO (warning parsed) (Ok (VStr url))).
  { unfold _validate_url, warning. rewrite Hparsed. run_io.
    rewrite (bool_decide_eq_true_2 _ Hscheme). cbn [negb]. run_io.
    destruct (existsb _ _); cbn [negb]; run_io; reflexivity. }
  assert (Hderived :
    forall args : kwargs,
      get args "url" (VStr EmptyString) = VStr url ->
      get args "filename" (VStr EmptyString) = VStr EmptyString ->
      web_tools.download_file w args
      = web_tools.download_file w (download_args url (derived_name parsed))).
  { intros args Hu Hf. unfold web_tools.download_file. rewrite Hu, Hf.
    replace (get (download_args url (derived_name parsed)) "url"
               (VStr EmptyString))
      with (VStr url) by reflexivity.
    replace (get (download_args url (derived_name parsed)) "filename"
               (VStr EmptyString))
      with (VStr (derived_name parsed)) by reflexivity.
    rewrite Hurl, Hvalid, Hname.
    replace (truthy (VStr EmptyString)) with false by reflexivity.
    cbn [negb]. run_io. rewrite Hparsed. reflexivity. }
  repeat split; [apply Hderived; reflexivity .. | exact Hslash].
Qed.

End derived_names.

Section fields.

(** The loop of [_analyze_fields] adds the entry of each column. *)
Lemma fields_loop (columns : list (string * value)) :
  forall acc r : list (string * value),
    for_ columns acc
      (fun field_analysis '(field, missing_info) =>
         p ← subscript missing_info "percentage";
         completeness ← arith "-" sub (VInt 100) p;
         missing_count ← subscript missing_info "count";
         Ok (field_analysis ++
               [ (field,
                  VDict [ ("completeness", value_of completeness);
                          ("missing_count", missing_count) ]) ])%list)
    = Ok r ->
    exists fields,
      r = (acc ++ fields)%list
      /\ Forall2 (fun column field => field_of column = Some field)
           columns fields.
Proof.
  induction columns as [| [field missing_info] columns IH]; intros acc r.
  - cbn [for_]. intros Hr. injection Hr as <-. exists [].
    split; [now rewrite app_nil_r | constructor].
  - cbn [for_]. run.
    destruct (subscript missing_info "percentage") as [p |] eqn:Hp;
      [| discriminate].
    run. unfold arith. cbn [number_of].
    destruct (number_of p) as [n |] eqn:Hn; [| discriminate].
    destruct (sub (Int 100) n) as [completeness |] eqn:Hsub; [| discriminate].
    run.
    destruct (subscript missing_info "count") as [c |] eqn:Hc; [| discriminate].
    run. intros Hr. apply IH in Hr as (fields & -> & Hfields).
    eexists (_ :: fields). split; [now rewrite <- List.app_assoc |].
    constructor; [| exact Hfields].
    apply subscript_ok in Hp as (info & -> & Hp).
    apply subscript_ok in Hc as (info' & Hinfo & Hc).
    injection Hinfo as <-.
    unfold field_of. cbn [snd fst]. now rewrite Hp, Hc, Hn, Hsub.
Qed.

(** X29.  The field analysis has one entry for each column of
    [missing_values], under the name of the column and in the order of
    the columns: its completeness is 100 minus the percentage of the
    column, and its missing count is the count of the column.  Without
    [missing_values] it is empty. *)
Theorem _analyze_fields_columns (data : list (string * value))
    (field_analysis : value) :
  _analyze_fields (VDict data) = Ok field_analysis ->
  match dict_get data "missing_values" with
  | None => field_analysis = VDict []
  | Some missing =>
      exists columns fields : list (string * value),
        missing = VDict columns
        /\ field_analysis = VDict fields
        /\ Forall2 (fun column field => field_of column = Some field)
             columns fields
  end.
Proof.
  unfold _analyze_fields. cbn [contains_key subscript]. run.
  destruct (dict_get data "missing_values") as [missing |]; cbn [negb].
  - run. destruct missing as [| | | | | | columns]; try discriminate.
    cbn [items]. run.
    destruct (for_ columns [] _) as [fields |] eqn:Hfor; [| discriminate].
    run. intros Hr. injection Hr as <-.
    apply fields_loop in Hfor as (fields' & -> & Hfields).
    exists columns, fields'. auto.
  - intros Hr. now injection Hr as <-.
Qed.

End fields.

(** X28 on a URL without a file name: the page is stored as
    [downloaded_file]. *)
Lemma download_file_downloaded_file :
  web_tools.download_file sample.web (<["url" := VStr "https://example.com/"]> ∅)
  = web_tools.download_file sample.web
      (download_args "https://example.com/" "downloaded_file").
Proof.
  exact (proj1 (download_file_derives_name sample.web "https://example.com/"
                  (mkParseResult "https" "example.com" "/")
                  eq_refl eq_refl
                  (proj2 (elem_of_cons _ _ _)
                     (or_intror (proj2 (elem_of_cons _ _ _)
                                   (or_introl eq_refl)))))).
Defined.

(** X29 on the analysis of a file of three rows, one of which lacks
    the age. *)
Lemma _analyze_fields_one_age_missing :
  exists columns fields : list (string * value),
    VDict [ ("age",
             VDict [ ("count", VInt 1);
                     ("percentage", VFloat (1 / 3 * 100)) ]) ]
    = VDict columns
    /\ VDict [ ("age",
                VDict [ ("completeness", VFloat (100 - 1 / 3 * 100));
                        ("missing_count", VInt 1) ]) ]
       = VDict fields
    /\ Forall2 (fun column field => field_of column = Some field)
         columns fields.
Proof.
  exact (_analyze_fields_columns example.one_age_missing
           (VDict [ ("age",
                     VDict [ ("completeness", VFloat (100 - 1 / 3 * 100));
                             ("missing_count", VInt 1) ]) ])
           eq_refl).
Defined.

(** ** Summary reports *)

Section summary_reports.
Variable clk : clock.
Variable ordering : value -> value -> result bool.

(** A number greater than 20 is greater than 10. *)
Lemma above_20_10 (p : value) :
  reports.above p 20 = Ok true -> reports.above p 10 = Ok true.
Proof.
  unfold reports.above.
  destruct (number_of p) as [[z | x] |]; [| | discriminate]; cbn [gt].
  - intros H. injection H as H. apply Z.ltb_lt in H.
    f_equal. apply Z.ltb_lt. lia.
  - intros H. injection H as H. f_equal. revert H. unfold float_gt_int.
    destruct (Prim2SF x) as [s | s | | s m e]; try (intros H; exact H).
    destruct (0 <=? e)%Z eqn:He.
    + rewrite !Z.ltb_lt. lia.
    + rewrite !Z.ltb_lt. apply Z.leb_gt in He.
      assert (0 < 2 ^ (- e))%Z by (apply Z.pow_pos_nonneg; lia). nia.
Qed.

(** A stricter condition keeps fewer elements. *)
Lemma comprehension_subset {A} (keep keep' : A -> result bool) (xs : list A) :
  (forall x, keep x = Ok true -> keep' x = Ok true) ->
  forall kept kept' : list A,
    reports.comprehension keep xs = Ok kept ->
    reports.comprehension keep' xs = Ok kept' ->
    forall x, x ∈ kept -> x ∈ kept'.
Proof.
  intros Hkeep. induction xs as [| y xs IH]; intros kept kept' Hkept Hkept'.
  - cbn in Hkept. injection Hkept as <-. intros x Hx. inversion Hx.
  - cbn [reports.comprehension] in Hkept, Hkept'.
    destruct (keep y) as [b |] eqn:Hb; [| discriminate].
    destruct (keep' y) as [b' |] eqn:Hb'; [| discriminate].
    destruct (reports.comprehension keep xs) as [rest |]; [| discriminate].
    destruct (reports.comprehension keep' xs) as [rest' |]; [| discriminate].
    cbn in Hkept, Hkept'. injection Hkept as <-. injection Hkept' as <-.
    specialize (IH rest rest' eq_refl eq_refl). intros x.
    destruct b.
    + rewrite (Hkeep y Hb) in Hb'. injection Hb' as <-.
      rewrite !elem_of_cons. intros [-> | Hx]; auto.
    + intros Hx. apply IH in Hx.
      destruct b'; [apply elem_of_cons; now right | exact Hx].
Qed.

Lemma comprehension_thresholds (its high affected : list (string * value)) :
  reports.comprehension
    (fun kv => p ← subscript (snd kv) "percentage"; reports.above p 20)
    its = Ok high ->
  reports.comprehension
    (fun kv => p ← subscript (snd kv) "percentage"; reports.above p 10)
    its = Ok affected ->
  forall name, name ∈ map fst high -> name ∈ map fst affected.
Proof.
  intros Hhigh Haffected name Hname.
  apply list_elem_of_In, in_map_iff in Hname as (kv & <- & Hkv).
  apply list_elem_of_In, in_map, list_elem_of_In.
  apply list_elem_of_In in Hkv. revert kv Hkv.
  apply (comprehension_subset _ _ its) with (2 := Hhigh) (3 := Haffected).
  intros kv. run.
  destruct (subscript (snd kv) "percentage") as [p |]; [| discriminate].
  run. apply above_20_10.
Qed.

Lemma names_of_fields (l : list (string * value)) :
  names_of (VList (map (fun kv => VStr (fst kv)) l)) = map fst l.
Proof.
  cbn [names_of]. induction l as [| kv l IH]; [reflexivity |].
  cbn [map flat_map app]. now rewrite IH.
Qed.

Lemma greater_numbers (a b : value) (x y : number) :
  number_of a = Some x -> number_of b = Some y ->
  reports.greater ordering a b = Ok (gt x y).
Proof. unfold reports.greater. now intros -> ->. Qed.

(** A sequence that succeeds has succeeded at each step. *)
Lemma bind_ok {A B} (c : result A) (k : A -> result B) (r : B) :
  c ≫= k = Ok r -> exists a, c = Ok a /\ k a = Ok r.
Proof. destruct c as [a |]; [eauto | discriminate]. Qed.

(** A division that succeeds is by a number other than zero. *)
Lemma truediv_ok (a b q : number) :
  truediv a b = Ok q -> is_zero b = false.
Proof.
  intros Hq. destruct (is_zero b) eqn:Hb; [exfalso | reflexivity].
  destruct a as [x | x], b as [y | y]; cbn [is_zero] in Hb.
  - apply Z.eqb_eq in Hb. subst y. destruct x; discriminate Hq.
  - unfold truediv in Hq. destruct (to_float (Int x)); [| discriminate Hq].
    cbn [to_float mbind result_bind bind] in Hq. rewrite Hb in Hq.
    discriminate Hq.
  - apply Z.eqb_eq in Hb. subst y. discriminate Hq.
  - cbn [truediv to_float mbind result_bind bind] in Hq. rewrite Hb in Hq.
    discriminate Hq.
Qed.

(** The findings on numeric columns come after those it starts from. *)
Lemma statistical_findings_after (columns : list (string * value)) :
  forall start findings : list value,
    for_ columns start
      (fun key_findings '(col, stats) =>
         std ← subscript stats "std";
         mean ← subscript stats "mean";
         high ← reports.greater ordering std mean;
         if high : bool then
           mean ← subscript stats "mean";
           std ← subscript stats "std";
           std' ← subscript stats "std";
           mean' ← subscript stats "mean";
           coefficient_of_variation ← arith "/" truediv std' mean';
           Ok (key_findings ++
                 [ VDict
                     [ ("type", VStr "statistical");
                       ("finding", VStr ("High variability in " ++ col));
                       ("details",
                        VDict
                          [ ("mean", mean);
                            ("std", std);
                            ("coefficient_of_variation",
                             value_of coefficient_of_variation) ]) ] ])%list
         else Ok key_findings)
    = Ok findings ->
    exists statistical,
      findings = (start ++ statistical)%list
      /\ Forall (fun v => exists finding,
                   v = VDict (("type", VStr "statistical") :: finding))
           statistical
      /\ Forall
           (fun column =>
              exists (stats : list (string * value)) (s m : value),
                snd column = VDict stats
                /\ dict_get stats "std" = Some s
                /\ dict_get stats "mean" = Some m
                /\ forall sn mn : number,
                     number_of s = Some sn ->
                     number_of m = Some mn ->
                     gt sn mn = true -> is_zero mn = false)
           columns.
Proof.
  induction columns as [| [col stats] columns IH]; intros start findings.
  - cbn [for_]. intros H. injection H as <-. exists [].
    rewrite app_nil_r. repeat split; constructor.
  - cbn [for_]. run.
    destruct (subscript stats "std") as [s |] eqn:Hs; [| discriminate].
    destruct (subscript stats "mean") as [m |] eqn:Hm; [| discriminate].
    run.
    apply subscript_ok in Hs as (info & -> & Hs).
    apply subscript_ok in Hm as (info' & Hinfo & Hm).
    injection Hinfo as <-.
    destruct (reports.greater ordering s m) as [high |] eqn:Hhigh;
      [| run; intros Hx; discriminate Hx].
    run. destruct high.
    + destruct (arith "/" truediv s m) as [cv |] eqn:Hcv;
        [| run; intros Hx; discriminate Hx].
      run. intros Hrest.
      apply IH in Hrest as (statistical & -> & Hstat & Hcolumns).
      eexists (_ :: statistical). rewrite <- List.app_assoc.
      repeat split; [constructor; [eauto | exact Hstat] |].
      constructor; [| exact Hcolumns].
      exists info, s, m. repeat split; try assumption.
      intros sn mn Hsn Hmn _. unfold arith in Hcv. rewrite Hsn, Hmn in Hcv.
      now apply truediv_ok with sn cv.
    + intros Hrest.
      apply IH in Hrest as (statistical & -> & Hstat & Hcolumns).
      exists statistical. repeat split; [exact Hstat |].
      constructor; [| exact Hcolumns].
      exists info, s, m. repeat split; try assumption.
      intros sn mn Hsn Hmn Hgt.
      rewrite (greater_numbers s m sn mn Hsn Hmn) in Hhigh. congruence.
Qed.

(** X30.  What a summary report that is produced guarantees.  Every
    column it reports as having many missing values (more than 20
    percent) is among the fields it recommends to clean (more than 10
    percent).  And every numeric column has a [std] and a [mean], the
    mean being other than zero when the two are numbers and the
    deviation exceeds the mean: a column with a mean of zero and a
    deviation above zero makes the report fail, the coefficient of
    variation being a division by that mean. *)
Theorem summary_report_guarantees (data : list (string * value))
    (report : value) :
  reports._generate_summary_report clk ordering (VDict data) = Ok report ->
  (forall name : string,
      name ∈ high_missing report -> name ∈ affected_fields report)
  /\ (forall columns : list (string * value),
         dict_get data "numeric_statistics" = Some (VDict columns) ->
         Forall
           (fun column =>
              exists (stats : list (string * value)) (s m : value),
                snd column = VDict stats
                /\ dict_get stats "std" = Some s
                /\ dict_get stats "mean" = Some m
                /\ forall sn mn : number,
                     number_of s = Some sn ->
                     number_of m = Some mn ->
                     gt sn mn = true -> is_zero mn = false)
           columns).
Proof.
  unfold reports._generate_summary_report. cbv zeta. intros H.
  apply bind_ok in H as (b1 & _ & H). apply bind_ok in H as (ov1 & _ & H).
  apply bind_ok in H as (b2 & _ & H). apply bind_ok in H as (ov2 & _ & H).
  apply bind_ok in H as (b3 & Hb3 & H).
  apply bind_ok in H as (kf1 & Hkf1 & H).
  apply bind_ok in H as (b4 & Hb4 & H).
  apply bind_ok in H as (kf2 & Hkf2 & H).
  apply bind_ok in H as (b5 & Hb5 & H).
  apply bind_ok in H as (recs & Hrecs & H).
  injection H as <-.
  assert (b5 = b3) as -> by congruence. clear Hb5.
  (* the findings on numeric columns *)
  assert (Hnumeric :
    exists statistical,
      kf2 = (kf1 ++ statistical)%list
      /\ Forall (fun v => exists finding,
                   v = VDict (("type", VStr "statistical") :: finding))
           statistical
      /\ forall columns : list (string * value),
           dict_get data "numeric_statistics" = Some (VDict columns) ->
           Forall
             (fun column =>
                exists (stats : list (string * value)) (s m : value),
                  snd column = VDict stats
                  /\ dict_get stats "std" = Some s
                  /\ dict_get stats "mean" = Some m
                  /\ forall sn mn : number,
                       number_of s = Some sn ->
                       number_of m = Some mn ->
                       gt sn mn = true -> is_zero mn = false)
             columns).
  { cbn [contains_key subscript] in Hb4, Hkf2. injection Hb4 as <-.
    destruct (dict_get data "numeric_statistics") as [numeric |].
    - apply bind_ok in Hkf2 as (numeric' & Hnumeric & Hkf2).
      injection Hnumeric as <-.
      apply bind_ok in Hkf2 as (its & Hits & Hkf2).
      destruct numeric as [| | | | | | columns']; try discriminate Hits.
      cbn [items] in Hits. injection Hits as <-.
      apply statistical_findings_after in Hkf2
        as (statistical & -> & Hstat & Hcolumns).
      exists statistical. repeat split; [exact Hstat |].
      intros columns Hc. injection Hc as <-. exact Hcolumns.
    - injection Hkf2 as <-. exists []. rewrite app_nil_r.
      repeat split; [constructor | intros columns Hc; discriminate Hc]. }
  destruct Hnumeric as (statistical & -> & Hstat & Hcolumns).
  split; [| exact Hcolumns].
  (* the findings on missing values *)
  assert (Hnone :
    forall name,
      name ∈ high_missing
               (VDict
                  [ ("report_type", VStr "summary");
                    ("generated_at", VStr (isoformat_now clk 0));
                    ("overview", VDict ov2);
                    ("key_findings", VList ([] ++ statistical));
                    ("recommendations", VList recs) ]) ->
      False).
  { intros name. cbn -[is_str].
    destruct Hstat as [| v rest [finding ->] _]; cbn -[is_str];
      intros Hname; inversion Hname. }
  cbn [contains_key subscript] in Hb3, Hkf1, Hrecs. injection Hb3 as <-.
  destruct (dict_get data "missing_values") as [missing |].
  2: { injection Hkf1 as <-. intros name Hname. now apply Hnone in Hname. }
  apply bind_ok in Hkf1 as (missing' & Hmissing & Hkf1).
  injection Hmissing as <-.
  apply bind_ok in Hkf1 as (its & Hits & Hkf1).
  apply bind_ok in Hkf1 as (high & Hhigh & Hkf1).
  apply bind_ok in Hrecs as (missing' & Hmissing & Hrecs).
  injection Hmissing as <-.
  apply bind_ok in Hrecs as (its' & Hits' & Hrecs).
  assert (its' = its) as -> by congruence.
  apply bind_ok in Hrecs as (affected & Haffected & Hrecs).
  pose proof (comprehension_thresholds its high affected Hhigh Haffected)
    as Hthresholds.
  destruct high as [| kv high'].
  { cbn [truthy] in Hkf1. injection Hkf1 as <-.
    intros name Hname. now apply Hnone in Hname. }
  cbn [truthy] in Hkf1. injection Hkf1 as <-.
  intros name Hname.
  assert (Hin : name ∈ map fst (kv :: high')) by exact Hname.
  apply Hthresholds in Hin.
  destruct affected as [| kv' affected']; [inversion Hin |].
  cbn [truthy map] in Hrecs. injection Hrecs as <-.
  change (name ∈ names_of
                   (VList (map (fun kv => VStr (fst kv)) (kv' :: affected')))).
  now rewrite names_of_fields.
Qed.

End summary_reports.

(** X30 on an analysis with one column. *)
Lemma summary_report_age :
  reports._generate_summary_report example.clk sample.ordering (VDict sample.analysis)
  = Ok sample.summary
  /\ "age" ∈ affected_fields sample.summary.
Proof.
  assert (Hreport :
    reports._generate_summary_report example.clk sample.ordering (VDict sample.analysis)
    = Ok sample.summary) by (vm_compute; reflexivity).
  split; [exact Hreport |].
  apply (proj1 (summary_report_guarantees example.clk sample.ordering sample.analysis
                  sample.summary Hreport) "age").
  apply elem_of_cons. now left.
Defined.
